(** * Walking-track-app: activity classifier and session statistics

  A shallow embedding of the classifier service
  (services/ClassifierService.ts), the haversine distance of
  services/LocationService.ts, the batch statistics and the session
  operations of controllers/ActivityControl.ts, the two live hooks
  (hooks/ActivityClassifier.ts, hooks/useActivityClassifier.ts) and
  the stored routes and totals (services/StorageService.ts,
  services/RouteService.ts).

  TypeScript's [number] is an IEEE 754 binary64 value.  It is modelled
  by [spec_float] of the Standard Library at precision 53 and maximal
  exponent 1024, so that division by zero, NaN and the signed zeros
  behave as they do when the program runs. *)

From Stdlib Require Import ZArith Lia List Bool.
From Stdlib Require Import Floats.SpecFloat.
From stdpp Require Import base option countable gmap strings.

Import ListNotations.
Local Open Scope Z_scope.

(** ** JavaScript numbers *)

Module Num.

Abbreviation number := spec_float.

Definition prec : Z := 53.
Definition emax : Z := 1024.

Definition NaN : number := S754_nan.

Definition add : number -> number -> number := SFadd prec emax.
Definition sub : number -> number -> number := SFsub prec emax.
Definition mul : number -> number -> number := SFmul prec emax.
Definition div : number -> number -> number := SFdiv prec emax.
Definition neg : number -> number := SFopp.

(** [a < b], [a <= b], [a > b], [a >= b]: all false when an operand
    is NaN. *)
Definition lt (a b : number) : bool := SFltb a b.
Definition le (a b : number) : bool := SFleb a b.
Definition gt (a b : number) : bool := SFltb b a.
Definition ge (a b : number) : bool := SFleb b a.

(** The number an integer literal denotes, and the value of an array's
    [length]. *)
Definition of_Z (z : Z) : number := binary_normalize prec emax z 0 false.
Definition of_nat (n : nat) : number := of_Z (Z.of_nat n).

(** The number a decimal literal [n/d] denotes: the binary64 value
    nearest to the exact quotient, [0.2] being [dec 2 10]. *)
Definition dec (n d : Z) : number := div (of_Z n) (of_Z d).

Definition zero : number := S754_zero false.
Definition one : number := of_Z 1.

Definition is_nan (x : number) : bool :=
  match x with S754_nan => true | _ => false end.

(** Neither NaN nor an infinity. *)
Definition is_finite (x : number) : bool :=
  match x with
  | S754_zero _ | S754_finite _ _ _ => true
  | _ => false
  end.

(** A finite number other than the two zeros. *)
Definition is_finite_nonzero (x : number) : bool :=
  match x with S754_finite _ _ _ => true | _ => false end.

(** ToBoolean on a number: [0], [-0] and [NaN] are falsy. *)
Definition truthy (x : number) : bool :=
  match x with
  | S754_zero _ | S754_nan => false
  | _ => true
  end.

(** [x || d] on numbers. *)
Definition or_else (x d : number) : number := if truthy x then x else d.

(** [Math.max(a, b)]: NaN if either is NaN, and [+0] is larger than
    [-0]. *)
Definition Math_max (a b : number) : number :=
  match SFcompare a b with
  | None => NaN
  | Some Lt => b
  | Some Gt => a
  | Some Eq => match a with S754_zero true => b | _ => a end
  end.

(** [Math.min(a, b)]: NaN if either is NaN, and [-0] is smaller than
    [+0]. *)
Definition Math_min (a b : number) : number :=
  match SFcompare a b with
  | None => NaN
  | Some Lt => a
  | Some Gt => b
  | Some Eq => match a with S754_zero false => b | _ => a end
  end.

Definition Math_abs : number -> number := SFabs.
Definition Math_sqrt : number -> number := SFsqrt prec emax.

(** [Math.PI], the binary64 value 0x400921FB54442D18. *)
Definition Math_PI : number := S754_finite false 7074237752028440 (-51).

(** Zero, or a finite number whose exponent, and whose exponent plus
    number of mantissa bits, are at most [B]: below [2 ^ B] in
    magnitude. *)
Definition magnitude_within (B : Z) (x : number) : Prop :=
  match x with
  | S754_zero _ => True
  | S754_finite _ m e => Zpos (digits2_pos m) + e <= B /\ e <= B
  | _ => False
  end.

(** [x] lies in the closed interval from [lo] to [hi]. *)
Definition between (lo hi x : number) : Prop :=
  le lo x = true /\ le x hi = true.

End Num.

Import Num.

(** The part of the [Math] object that the language leaves to the
    implementation: the standard requires only an approximation of the
    mathematical function, so these four are kept abstract.
    ([Math.sqrt], [Math.abs], [Math.min] and [Math.max] are exact and
    are defined above.) *)
Class MathLib := {
  Math_sin : number -> number;
  Math_cos : number -> number;
  Math_atan2 : number -> number -> number;
  Math_pow : number -> number -> number
}.

(** ** models/ActivityModel.ts *)

Inductive ActivityType := IDLE | WALKING | RUNNING | VEHICLE | UNKNOWN.

#[global] Instance ActivityType_eq_dec : EqDecision ActivityType.
Proof. solve_decision. Defined.

Definition ActivityType_index (a : ActivityType) : nat :=
  match a with
  | IDLE => 0 | WALKING => 1 | RUNNING => 2 | VEHICLE => 3 | UNKNOWN => 4
  end%nat.

Definition ActivityType_at (n : nat) : option ActivityType :=
  match n with
  | 0 => Some IDLE | 1 => Some WALKING | 2 => Some RUNNING
  | 3 => Some VEHICLE | 4 => Some UNKNOWN | _ => None
  end%nat.

#[global] Instance ActivityType_countable : Countable ActivityType.
Proof.
  refine (inj_countable ActivityType_index ActivityType_at _).
  intros []; reflexivity.
Defined.

(** [speed], [altitude], [accuracy] and [heading] may be [null]. *)
Record LocationData := {
  loc_latitude : number;
  loc_longitude : number;
  loc_speed : option number;
  loc_timestamp : number;
  loc_altitude : option number;
  loc_accuracy : option number;
  loc_heading : option number
}.

Record AccelerometerData := {
  acc_x : number;
  acc_y : number;
  acc_z : number;
  acc_magnitude : number;
  acc_timestamp : number
}.

Record ActivityLog := {
  log_id : string;
  log_activity : ActivityType;
  log_confidence : number;
  log_location : LocationData;
  log_acceleration : AccelerometerData;
  log_timestamp : number;
  log_speed : number
}.

(** [endTime] is [number | null]; [activities] is an object with at
    most one count per activity. *)
Record SessionStats := {
  sessionId : string;
  startTime : number;
  endTime : option number;
  duration : number;
  distance : number;
  steps : number;
  calories : number;
  averageSpeed : number;
  maxSpeed : number;
  activities : gmap ActivityType number
}.

Record ClassifierConfig := {
  idleSpeedThreshold : number;
  walkingSpeedThreshold : number;
  runningSpeedThreshold : number;
  vehicleSpeedThreshold : number;
  idleAccelerationThreshold : number;
  walkingAccelerationThreshold : number;
  runningAccelerationThreshold : number;
  movingAverageWindow : number;
  confidenceThreshold : number;
  stepDetectionThreshold : number;
  caloriesPerStep : number;
  caloriesPerKmRunning : number;
  caloriesPerKmVehicle : number
}.

Definition DEFAULT_CLASSIFIER_CONFIG : ClassifierConfig := {|
  idleSpeedThreshold := dec 5 10;
  walkingSpeedThreshold := dec 25 10;
  runningSpeedThreshold := dec 50 10;
  vehicleSpeedThreshold := dec 80 10;
  idleAccelerationThreshold := dec 15 100;
  walkingAccelerationThreshold := dec 3 10;
  runningAccelerationThreshold := dec 6 10;
  movingAverageWindow := of_Z 5;
  confidenceThreshold := dec 7 10;
  stepDetectionThreshold := dec 25 100;
  caloriesPerStep := dec 4 100;
  caloriesPerKmRunning := of_Z 62;
  caloriesPerKmVehicle := of_Z 0
|}.

(** [Partial<ClassifierConfig>]: every field may be absent. *)
Record PartialClassifierConfig := {
  p_idleSpeedThreshold : option number;
  p_walkingSpeedThreshold : option number;
  p_runningSpeedThreshold : option number;
  p_vehicleSpeedThreshold : option number;
  p_idleAccelerationThreshold : option number;
  p_walkingAccelerationThreshold : option number;
  p_runningAccelerationThreshold : option number;
  p_movingAverageWindow : option number;
  p_confidenceThreshold : option number;
  p_stepDetectionThreshold : option number;
  p_caloriesPerStep : option number;
  p_caloriesPerKmRunning : option number;
  p_caloriesPerKmVehicle : option number
}.

(** [{ ...base, ...over }] *)
Definition spread_config (base : ClassifierConfig)
  (over : PartialClassifierConfig) : ClassifierConfig := {|
  idleSpeedThreshold :=
    default (idleSpeedThreshold base) (p_idleSpeedThreshold over);
  walkingSpeedThreshold :=
    default (walkingSpeedThreshold base) (p_walkingSpeedThreshold over);
  runningSpeedThreshold :=
    default (runningSpeedThreshold base) (p_runningSpeedThreshold over);
  vehicleSpeedThreshold :=
    default (vehicleSpeedThreshold base) (p_vehicleSpeedThreshold over);
  idleAccelerationThreshold :=
    default (idleAccelerationThreshold base)
      (p_idleAccelerationThreshold over);
  walkingAccelerationThreshold :=
    default (walkingAccelerationThreshold base)
      (p_walkingAccelerationThreshold over);
  runningAccelerationThreshold :=
    default (runningAccelerationThreshold base)
      (p_runningAccelerationThreshold over);
  movingAverageWindow :=
    default (movingAverageWindow base) (p_movingAverageWindow over);
  confidenceThreshold :=
    default (confidenceThreshold base) (p_confidenceThreshold over);
  stepDetectionThreshold :=
    default (stepDetectionThreshold base) (p_stepDetectionThreshold over);
  caloriesPerStep :=
    default (caloriesPerStep base) (p_caloriesPerStep over);
  caloriesPerKmRunning :=
    default (caloriesPerKmRunning base) (p_caloriesPerKmRunning over);
  caloriesPerKmVehicle :=
    default (caloriesPerKmVehicle base) (p_caloriesPerKmVehicle over)
|}.

(** ** services/ClassifierService.ts

    The service is one object with three private fields.  A method is a
    function from the object before the call to the returned value and
    the object after the call. *)

Record ActivityClassifierService := {
  config : ClassifierConfig;
  speedHistory : list number;
  accelerationHistory : list number
}.

Definition Method (A : Type) : Type :=
  ActivityClassifierService -> A * ActivityClassifierService.

Definition ret {A} (a : A) : Method A := fun this => (a, this).

Definition bind {A B} (m : Method A) (k : A -> Method B) : Method B :=
  fun this => let (a, this') := m this in k a this'.

Notation "x <- m ;; k" := (bind m (fun x => k))
  (at level 100, m at next level, right associativity).
Notation "m ;;; k" := (bind m (fun _ => k))
  (at level 100, right associativity).

(** Reads and writes of the fields of [this]. *)
Definition this_config : Method ClassifierConfig :=
  fun this => (config this, this).
Definition this_speedHistory : Method (list number) :=
  fun this => (speedHistory this, this).
Definition this_accelerationHistory : Method (list number) :=
  fun this => (accelerationHistory this, this).
Definition set_config (c : ClassifierConfig) : Method unit :=
  fun this =>
    (tt, {| config := c; speedHistory := speedHistory this;
            accelerationHistory := accelerationHistory this |}).
Definition set_speedHistory (h : list number) : Method unit :=
  fun this =>
    (tt, {| config := config this; speedHistory := h;
            accelerationHistory := accelerationHistory this |}).
Definition set_accelerationHistory (h : list number) : Method unit :=
  fun this =>
    (tt, {| config := config this; speedHistory := speedHistory this;
            accelerationHistory := h |}).

(** The value a call returns and the object it leaves. *)
Definition result {A} (m : Method A) (this : ActivityClassifierService) : A :=
  fst (m this).
Definition after {A} (m : Method A) (this : ActivityClassifierService)
  : ActivityClassifierService := snd (m this).

(** The service as the module creates it. *)
Definition new_ActivityClassifierService : ActivityClassifierService := {|
  config := DEFAULT_CLASSIFIER_CONFIG;
  speedHistory := [];
  accelerationHistory := []
|}.

Section Classifier.
Context `{MathLib}.

Definition setConfig (c : PartialClassifierConfig) : Method unit :=
  cfg <- this_config ;;
  set_config (spread_config cfg c).

Definition getConfig : Method ClassifierConfig :=
  cfg <- this_config ;;
  ret cfg.

Definition calculateMagnitude (x y z : number) : number :=
  Math_sqrt (add (add (mul x x) (mul y y)) (mul z z)).

Definition calculateMovingAverage (values : list number) : number :=
  if (length values =? 0)%nat then zero
  else
    let sum := fold_left (fun acc val => add acc val) values zero in
    div sum (of_nat (length values)).

Definition updateHistory (history : list number) (newValue : number)
  : Method (list number) :=
  cfg <- this_config ;;
  let updated := history ++ [newValue] in
  if gt (of_nat (length updated)) (movingAverageWindow cfg)
  then ret (tail updated)
  else ret updated.

Definition updateHistories (speed acceleration : number) : Method unit :=
  sh <- this_speedHistory ;;
  sh' <- updateHistory sh speed ;;
  set_speedHistory sh' ;;;
  ah <- this_accelerationHistory ;;
  ah' <- updateHistory ah acceleration ;;
  set_accelerationHistory ah'.

Definition getAverages : Method (number * number) :=
  sh <- this_speedHistory ;;
  ah <- this_accelerationHistory ;;
  ret (calculateMovingAverage sh, calculateMovingAverage ah).

Definition getActivity (speed acceleration : number) : Method ActivityType :=
  averages <- getAverages ;;
  let '(avgSpeed, avgAcceleration) := averages in
  cfg <- this_config ;;
  let effectiveSpeed := if gt avgSpeed zero then avgSpeed else speed in
  let effectiveAcceleration :=
    if gt avgAcceleration zero then avgAcceleration else acceleration in
  if lt effectiveSpeed (idleSpeedThreshold cfg) then
    if lt effectiveAcceleration (idleAccelerationThreshold cfg)
    then ret IDLE
    else ret IDLE
  else if ge effectiveSpeed (vehicleSpeedThreshold cfg) then ret VEHICLE
  else if ge effectiveSpeed (runningSpeedThreshold cfg) then
    if ge effectiveAcceleration (runningAccelerationThreshold cfg)
    then ret RUNNING
    else ret VEHICLE
  else if ge effectiveSpeed (walkingSpeedThreshold cfg) then
    if ge effectiveAcceleration (walkingAccelerationThreshold cfg)
    then ret RUNNING
    else ret WALKING
  else if ge effectiveAcceleration (walkingAccelerationThreshold cfg)
  then ret WALKING
  else ret IDLE.

Definition calculateVariance (values : list number) : number :=
  if (length values =? 0)%nat then zero
  else
    let avg := calculateMovingAverage values in
    let squareDiffs :=
      map (fun value => Math_pow (sub value avg) (of_Z 2)) values in
    calculateMovingAverage squareDiffs.

Definition getConfidence (speed acceleration : number)
  (activity : ActivityType) : Method number :=
  let confidence := dec 5 10 in
  averages <- getAverages ;;
  let '(avgSpeed, avgAcceleration) := averages in
  sh <- this_speedHistory ;;
  cfg <- this_config ;;
  let historyFactor :=
    Math_min (div (of_nat (length sh)) (movingAverageWindow cfg)) one in
  let confidence := add confidence (mul historyFactor (dec 2 10)) in
  let confidence :=
    match activity with
    | IDLE =>
        if lt speed (idleSpeedThreshold cfg)
           && lt acceleration (idleAccelerationThreshold cfg)
        then add confidence (dec 3 10) else confidence
    | WALKING =>
        if ge speed (idleSpeedThreshold cfg)
           && lt speed (runningSpeedThreshold cfg)
           && ge acceleration (walkingAccelerationThreshold cfg)
        then add confidence (dec 25 100) else confidence
    | RUNNING =>
        if ge speed (runningSpeedThreshold cfg)
           && ge acceleration (runningAccelerationThreshold cfg)
        then add confidence (dec 3 10) else confidence
    | VEHICLE =>
        if ge speed (vehicleSpeedThreshold cfg)
        then add confidence (dec 3 10) else confidence
    | UNKNOWN => confidence
    end in
  let confidence :=
    if ge (of_nat (length sh)) (movingAverageWindow cfg) then
      let speedVariance := calculateVariance sh in
      if lt speedVariance (dec 5 10)
      then add confidence (dec 1 10) else confidence
    else confidence in
  ret (Math_min (Math_max confidence zero) one).

(** [history[history.length - 1]]; an index out of range would read
    [undefined], which arithmetic turns into NaN. *)
Definition detectStep (acceleration : number) : Method bool :=
  ah <- this_accelerationHistory ;;
  cfg <- this_config ;;
  if (length ah <? 2)%nat then ret false
  else
    let prevAcceleration := nth (length ah - 1) ah NaN in
    let isPeak :=
      gt acceleration (add prevAcceleration (stepDetectionThreshold cfg))
      && gt acceleration (walkingAccelerationThreshold cfg) in
    ret isPeak.

Definition reset : Method unit :=
  set_speedHistory [] ;;;
  set_accelerationHistory [].

End Classifier.

(** ** services/LocationService.ts *)

Section LocationService.
Context `{MathLib}.

(** Haversine distance in metres. *)
Definition calculateDistance (lat1 lon1 lat2 lon2 : number) : number :=
  let R := of_Z 6371000 in
  let phi1 := div (mul lat1 Math_PI) (of_Z 180) in
  let phi2 := div (mul lat2 Math_PI) (of_Z 180) in
  let dphi := div (mul (sub lat2 lat1) Math_PI) (of_Z 180) in
  let dlambda := div (mul (sub lon2 lon1) Math_PI) (of_Z 180) in
  let a :=
    add (mul (Math_sin (div dphi (of_Z 2))) (Math_sin (div dphi (of_Z 2))))
        (mul (mul (mul (Math_cos phi1) (Math_cos phi2))
                  (Math_sin (div dlambda (of_Z 2))))
             (Math_sin (div dlambda (of_Z 2)))) in
  let c := mul (of_Z 2) (Math_atan2 (Math_sqrt a) (Math_sqrt (sub one a))) in
  mul R c.

(** The distance between the fixes of two log entries. *)
Definition log_distance (prev current : ActivityLog) : number :=
  calculateDistance
    (loc_latitude (log_location prev)) (loc_longitude (log_location prev))
    (loc_latitude (log_location current))
    (loc_longitude (log_location current)).

End LocationService.

(** ** controllers/ActivityControl.ts *)

Section ActivityController.
Context `{MathLib}.

(** [for (let i = 1; i < logs.length; i++) total += distance(logs[i-1],
    logs[i])], entered with [prev = logs[i-1]] and the entries from
    [logs[i]] on; also the shape of the [reduce] over the running
    entries, which skips index 0 and adds the distance from
    [arr[index - 1]]. *)
Fixpoint sumDistances (prev : ActivityLog) (rest : list ActivityLog)
  (total : number) : number :=
  match rest with
  | [] => total
  | current :: rest' =>
      sumDistances current rest' (add total (log_distance prev current))
  end.

Definition consecutiveDistance (logs : list ActivityLog) : number :=
  match logs with
  | [] => zero
  | first :: rest => sumDistances first rest zero
  end.

Definition isWalkingOrRunning (activity : ActivityType) : bool :=
  match activity with
  | WALKING | RUNNING => true
  | _ => false
  end.

(** The step loop, over [logs[1]], [logs[2]], ...: the detector is the
    one of the shared classifier object, asked with the entry's stored
    magnitude. *)
Fixpoint countSteps (rest : list ActivityLog) (steps : number)
  : Method number :=
  match rest with
  | [] => ret steps
  | entry :: rest' =>
      fired <- detectStep (acc_magnitude (log_acceleration entry)) ;;
      let steps :=
        if fired then
          if isWalkingOrRunning (log_activity entry)
          then add steps one else steps
        else steps in
      countSteps rest' steps
  end.

(** [activities[a] = (activities[a] || 0) + 1]; a missing key reads
    [undefined], which is falsy. *)
Definition countActivity (activities : gmap ActivityType number)
  (a : ActivityType) : gmap ActivityType number :=
  <[a := add (or_else (default NaN (activities !! a)) zero) one]> activities.

(** [Math.max(...speeds)] *)
Definition maxOf (speeds : list number) : number :=
  fold_left Math_max speeds (S754_infinity true).

(** [now] is what [Date.now()] returns when the method reads the clock. *)
Definition calculateSessionStats (now : number) (logs : list ActivityLog)
  (sessionId : string) (startTime : number) : Method SessionStats :=
  if (length logs =? 0)%nat then
    ret {| sessionId := sessionId; startTime := startTime;
           endTime := Some now; duration := zero; distance := zero;
           steps := zero; calories := zero; averageSpeed := zero;
           maxSpeed := zero; activities := ∅ |}
  else
    let totalDistance := consecutiveDistance logs in
    steps <- countSteps (tail logs) zero ;;
    config <- getConfig ;;
    let calories := mul steps (caloriesPerStep config) in
    let runningDistance :=
      consecutiveDistance
        (List.filter (fun log => bool_decide (log_activity log = RUNNING))
           logs) in
    let calories :=
      add calories
        (mul (div runningDistance (of_Z 1000))
           (caloriesPerKmRunning config)) in
    let speeds := List.filter (fun s => gt s zero) (map log_speed logs) in
    let averageSpeed :=
      if (0 <? length speeds)%nat
      then div (fold_left (fun sum s => add sum s) speeds zero)
               (of_nat (length speeds))
      else zero in
    let maxSpeed := if (0 <? length speeds)%nat then maxOf speeds else zero in
    let activities :=
      fold_left (fun acts log => countActivity acts (log_activity log))
        logs ∅ in
    let endTime := now in
    let duration := sub endTime startTime in
    ret {| sessionId := sessionId; startTime := startTime;
           endTime := Some endTime; duration := duration;
           distance := totalDistance; steps := steps; calories := calories;
           averageSpeed := averageSpeed; maxSpeed := maxSpeed;
           activities := activities |}.

End ActivityController.

(** ** hooks/ActivityClassifier.ts

    The hook of the tracker screen.  Its state is the React state of the
    component, the [lastLocationRef] reference and the classifier
    service it imports. *)

Module HookActivityClassifier.

Record State := {
  classifier : ActivityClassifierService;
  sessionStats : SessionStats;
  activityLogs : list ActivityLog;
  currentActivity : ActivityType;
  confidence : number;
  location : option LocationData;
  acceleration : option AccelerometerData;
  lastLocationRef : option LocationData
}.

(** What one run of the accelerometer listener reads from outside: the
    clock at its [Date.now()] calls and the text of the log id. *)
Record Tick := {
  sampleTime : number;
  logId : string;
  logTime : number;
  statsTime : number
}.

Section Hook.
Context `{MathLib}.

(** The callback given to [LocationService.startTracking]. *)
Definition onLocation (now : number) (gps : LocationData) (st : State)
  : State :=
  let newLoc0 := {|
    loc_latitude := loc_latitude gps;
    loc_longitude := loc_longitude gps;
    loc_speed := Some zero;
    loc_timestamp := loc_timestamp gps;
    loc_altitude := loc_altitude gps;
    loc_accuracy := loc_accuracy gps;
    loc_heading := loc_heading gps |} in
  let '(newLoc, stats) :=
    match lastLocationRef st with
    | Some last =>
        let dt := div (sub now (loc_timestamp last)) (of_Z 1000) in
        let dist :=
          calculateDistance (loc_latitude last) (loc_longitude last)
            (loc_latitude newLoc0) (loc_longitude newLoc0) in
        let speed := div dist dt in
        let newSpeed := if is_finite speed then speed else zero in
        let newLoc := {|
          loc_latitude := loc_latitude newLoc0;
          loc_longitude := loc_longitude newLoc0;
          loc_speed := Some newSpeed;
          loc_timestamp := loc_timestamp newLoc0;
          loc_altitude := loc_altitude newLoc0;
          loc_accuracy := loc_accuracy newLoc0;
          loc_heading := loc_heading newLoc0 |} in
        let prev := sessionStats st in
        (newLoc,
         {| sessionId := sessionId prev; startTime := startTime prev;
            endTime := endTime prev; duration := duration prev;
            distance :=
              add (distance prev) (if is_finite dist then dist else zero);
            steps := steps prev; calories := calories prev;
            averageSpeed := averageSpeed prev;
            maxSpeed := Math_max (maxSpeed prev) newSpeed;
            activities := activities prev |})
    | None => (newLoc0, sessionStats st)
    end in
  {| classifier := classifier st; sessionStats := stats;
     activityLogs := activityLogs st;
     currentActivity := currentActivity st; confidence := confidence st;
     location := Some newLoc; acceleration := acceleration st;
     lastLocationRef := Some newLoc |}.

(** [location?.latitude && location?.longitude] as a condition. *)
Definition hasFix (location : option LocationData) : bool :=
  match location with
  | Some l => truthy (loc_latitude l) && truthy (loc_longitude l)
  | None => false
  end.

(** The update function given to [setSessionStats] by the listener. *)
Definition foldSample (now : number) (activity : ActivityType)
  (prev : SessionStats) : SessionStats :=
  let duration := sub now (startTime prev) in
  let durationInSeconds := div duration (of_Z 1000) in
  let steps := steps prev in
  let calories := calories prev in
  let steps :=
    if isWalkingOrRunning activity then add steps one else steps in
  let calories :=
    if bool_decide (activity = RUNNING) then add calories (dec 1 10)
    else if bool_decide (activity = WALKING) then add calories (dec 5 100)
    else calories in
  let averageSpeed :=
    if gt durationInSeconds zero
    then div (distance prev) durationInSeconds else zero in
  {| sessionId := sessionId prev; startTime := startTime prev;
     endTime := endTime prev; duration := duration;
     distance := distance prev; steps := steps; calories := calories;
     averageSpeed := averageSpeed; maxSpeed := maxSpeed prev;
     activities := countActivity (activities prev) activity |}.

(** The accelerometer listener.  [location] is the value of the
    [location] state that the listener's closure holds. *)
Definition onAccelerometer (location : option LocationData) (tick : Tick)
  (x y z : number) (st : State) : State :=
  let magnitude := calculateMagnitude x y z in
  let accelData := {|
    acc_x := x; acc_y := y; acc_z := z; acc_magnitude := magnitude;
    acc_timestamp := sampleTime tick |} in
  match location with
  | Some loc =>
      if hasFix location then
        let speed := default zero (loc_speed loc) in
        let c1 := after (updateHistories speed magnitude) (classifier st) in
        let '(activity, c2) := getActivity speed magnitude c1 in
        let '(activityConfidence, c3) :=
          getConfidence speed magnitude activity c2 in
        let log := {|
          log_id := logId tick; log_activity := activity;
          log_confidence := activityConfidence; log_location := loc;
          log_acceleration := accelData; log_timestamp := logTime tick;
          log_speed := speed |} in
        {| classifier := c3;
           sessionStats :=
             foldSample (statsTime tick) activity (sessionStats st);
           activityLogs := activityLogs st ++ [log];
           currentActivity := activity; confidence := activityConfidence;
           location := HookActivityClassifier.location st;
           acceleration := Some accelData;
           lastLocationRef := lastLocationRef st |}
      else
        {| classifier := classifier st; sessionStats := sessionStats st;
           activityLogs := activityLogs st;
           currentActivity := currentActivity st;
           confidence := confidence st;
           location := HookActivityClassifier.location st;
           acceleration := Some accelData;
           lastLocationRef := lastLocationRef st |}
  | None =>
      {| classifier := classifier st; sessionStats := sessionStats st;
         activityLogs := activityLogs st;
         currentActivity := currentActivity st;
         confidence := confidence st;
         location := HookActivityClassifier.location st;
         acceleration := Some accelData;
         lastLocationRef := lastLocationRef st |}
  end.

(** The activity the listener classifies the sample as. *)
Definition classified (location : LocationData) (x y z : number)
  (st : State) : ActivityType :=
  let magnitude := calculateMagnitude x y z in
  let speed := default zero (loc_speed location) in
  result (updateHistories speed magnitude ;;;
          getActivity speed magnitude) (classifier st).

(** Whether the Step Detector fires for the sample, asked as the batch
    path asks it: after the sample has been pushed. *)
Definition stepFired (location : LocationData) (x y z : number)
  (st : State) : bool :=
  let magnitude := calculateMagnitude x y z in
  let speed := default zero (loc_speed location) in
  result (updateHistories speed magnitude ;;;
          detectStep magnitude) (classifier st).

End Hook.
End HookActivityClassifier.

(** ** hooks/useActivityClassifier.ts

    The second hook keeps its statistics in references.  No screen
    imports it. *)

Module HookUseActivityClassifier.

Record State := {
  classifier : ActivityClassifierService;
  sessionStatsRef : SessionStats;
  lastLocationRef : option LocationData;
  stepCountRef : number;
  speedSumRef : number;
  speedCountRef : number;
  activityLogs : list ActivityLog;
  currentActivity : ActivityType;
  confidence : number;
  location : option LocationData;
  error : option string
}.

Record Tick := {
  logId : string;
  logTime : number;
  statsTime : number
}.

(** How a block of statements ends. *)
Inductive Completion (A : Type) :=
| Normal (a : A)
| Throw (message : string).
Arguments Normal {A} a.
Arguments Throw {A} message.

(** A value passed where the callee expects [number[]]. *)
Inductive HistoryArgument :=
| AnArray (values : list number)
| ANumber (value : number).

Section Hook.
Context `{MathLib}.

(** [updateHistory] as a caller that ignores its parameter types meets
    it: the body starts with [[...history, newValue]], and spreading a
    value that is not iterable throws a TypeError. *)
Definition callUpdateHistory (history : HistoryArgument) (newValue : number)
  (this : ActivityClassifierService)
  : Completion (list number * ActivityClassifierService) :=
  match history with
  | AnArray values => Normal (updateHistory values newValue this)
  | ANumber _ => Throw "TypeError: history is not iterable"
  end.

Definition setLocation (l : option LocationData) (st : State) : State :=
  {| classifier := classifier st; sessionStatsRef := sessionStatsRef st;
     lastLocationRef := lastLocationRef st; stepCountRef := stepCountRef st;
     speedSumRef := speedSumRef st; speedCountRef := speedCountRef st;
     activityLogs := activityLogs st; currentActivity := currentActivity st;
     confidence := confidence st; location := l; error := error st |}.

Definition setError (e : string) (st : State) : State :=
  {| classifier := classifier st; sessionStatsRef := sessionStatsRef st;
     lastLocationRef := lastLocationRef st; stepCountRef := stepCountRef st;
     speedSumRef := speedSumRef st; speedCountRef := speedCountRef st;
     activityLogs := activityLogs st; currentActivity := currentActivity st;
     confidence := confidence st;
     location := HookUseActivityClassifier.location st; error := Some e |}.

(** The statements of the [try] block of [handleLocationUpdate]. *)
Definition tryProcess (acceleration : AccelerometerData) (tick : Tick)
  (newLocation : LocationData) (st : State) : Completion State :=
  let speed := default zero (loc_speed newLocation) in
  let effectiveSpeed := Math_abs speed in
  match callUpdateHistory (ANumber effectiveSpeed)
          (acc_magnitude acceleration) (classifier st) with
  | Throw e => Throw e
  | Normal (_, c1) =>
      let '(activity, c2) :=
        getActivity effectiveSpeed (acc_magnitude acceleration) c1 in
      let '(activityConfidence, c3) :=
        getConfidence effectiveSpeed (acc_magnitude acceleration)
          activity c2 in
      let distanceIncrement :=
        match lastLocationRef st with
        | Some last =>
            calculateDistance (loc_latitude last) (loc_longitude last)
              (loc_latitude newLocation) (loc_longitude newLocation)
        | None => zero
        end in
      let '(fired, c4) := detectStep (acc_magnitude acceleration) c3 in
      let stepCount :=
        if fired then
          if isWalkingOrRunning activity
          then add (stepCountRef st) one else stepCountRef st
        else stepCountRef st in
      let '(config, c5) := getConfig c4 in
      let caloriesIncrement :=
        if bool_decide (activity = WALKING) then caloriesPerStep config
        else if bool_decide (activity = RUNNING) then
          add (caloriesPerStep config)
              (mul (div distanceIncrement (of_Z 1000))
                   (caloriesPerKmRunning config))
        else zero in
      let speedSum := add (speedSumRef st) effectiveSpeed in
      let speedCount := add (speedCountRef st) one in
      let activityLog := {|
        log_id := logId tick; log_activity := activity;
        log_confidence := activityConfidence; log_location := newLocation;
        log_acceleration := acceleration; log_timestamp := logTime tick;
        log_speed := effectiveSpeed |} in
      let currentStats := sessionStatsRef st in
      let now := statsTime tick in
      let duration := sub now (startTime currentStats) in
      Normal
        {| classifier := c5;
           sessionStatsRef :=
             {| sessionId := sessionId currentStats;
                startTime := startTime currentStats;
                endTime := endTime currentStats;
                duration := duration;
                distance := add (distance currentStats) distanceIncrement;
                steps := stepCount;
                calories := add (calories currentStats) caloriesIncrement;
                averageSpeed :=
                  if gt speedCount zero then div speedSum speedCount
                  else zero;
                maxSpeed :=
                  Math_max (maxSpeed currentStats) effectiveSpeed;
                activities :=
                  countActivity (activities currentStats) activity |};
           lastLocationRef := Some newLocation;
           stepCountRef := stepCount;
           speedSumRef := speedSum;
           speedCountRef := speedCount;
           activityLogs := activityLogs st ++ [activityLog];
           currentActivity := activity;
           confidence := activityConfidence;
           location := HookUseActivityClassifier.location st;
           error := error st |}
  end.

(** [isActive] and [acceleration] are the values the callback's closure
    holds. *)
Definition handleLocationUpdate (isActive : bool)
  (acceleration : option AccelerometerData) (tick : Tick)
  (newLocation : LocationData) (st : State) : State :=
  let st := setLocation (Some newLocation) st in
  match acceleration with
  | Some acc =>
      if isActive then
        match tryProcess acc tick newLocation st with
        | Normal st' => st'
        | Throw _ => setError "Error procesando datos de ubicación" st
        end
      else st
  | None => st
  end.

End Hook.
End HookUseActivityClassifier.

(** ** The decision procedures as the specification words them *)

(** Arithmetic mean of a buffer; 0 when it is empty. *)
Definition spec_mean (history : list number) : number :=
  match history with
  | [] => zero
  | _ => div (fold_left add history zero) (of_nat (length history))
  end.

(** The history mean if the history is non-empty and its mean is
    positive, else the raw value. *)
Definition spec_effective (history : list number) (raw : number) : number :=
  match history with
  | [] => raw
  | _ => if gt (spec_mean history) zero then spec_mean history else raw
  end.

(** The ordered rules 2 to 7 of the classifier; the first match wins. *)
Definition spec_classify (cfg : ClassifierConfig)
  (effectiveSpeed effectiveAcceleration : number) : ActivityType :=
  if lt effectiveSpeed (idleSpeedThreshold cfg) then IDLE
  else if ge effectiveSpeed (vehicleSpeedThreshold cfg) then VEHICLE
  else if ge effectiveSpeed (runningSpeedThreshold cfg) then
    (if ge effectiveAcceleration (runningAccelerationThreshold cfg)
     then RUNNING else VEHICLE)
  else if ge effectiveSpeed (walkingSpeedThreshold cfg) then
    (if ge effectiveAcceleration (walkingAccelerationThreshold cfg)
     then RUNNING else WALKING)
  else if ge effectiveAcceleration (walkingAccelerationThreshold cfg)
  then WALKING
  else IDLE.

(** [clamp(x, lo, hi)] *)
Definition clamp (x lo hi : number) : number := Math_min (Math_max x lo) hi.

(** A bonus that is added only when its condition holds. *)
Definition plus_if (condition : bool) (bonus total : number) : number :=
  if condition then add total bonus else total.

(** The rule-consistency condition of an activity on the raw inputs. *)
Definition spec_consistent (cfg : ClassifierConfig)
  (speed acceleration : number) (activity : ActivityType) : bool :=
  match activity with
  | IDLE =>
      lt speed (idleSpeedThreshold cfg)
      && lt acceleration (idleAccelerationThreshold cfg)
  | WALKING =>
      ge speed (idleSpeedThreshold cfg)
      && lt speed (runningSpeedThreshold cfg)
      && ge acceleration (walkingAccelerationThreshold cfg)
  | RUNNING =>
      ge speed (runningSpeedThreshold cfg)
      && ge acceleration (runningAccelerationThreshold cfg)
  | VEHICLE => ge speed (vehicleSpeedThreshold cfg)
  | UNKNOWN => false
  end.

Definition spec_bonus (activity : ActivityType) : number :=
  match activity with
  | WALKING => dec 25 100
  | _ => dec 3 10
  end.

Section SpecConfidence.
Context `{MathLib}.

(** Mean squared deviation from the mean; 0 when the buffer is empty. *)
Definition spec_variance (history : list number) : number :=
  match history with
  | [] => zero
  | _ =>
      spec_mean
        (map (fun v => Math_pow (sub v (spec_mean history)) (of_Z 2))
           history)
  end.

(** [clamp(0.5 + min(length/window, 1) * 0.2 + consistency bonus +
    stability bonus, 0, 1)] *)
Definition spec_confidence (cfg : ClassifierConfig)
  (speedHistory : list number) (speed acceleration : number)
  (activity : ActivityType) : number :=
  let sufficiency :=
    mul (Math_min (div (of_nat (length speedHistory))
                       (movingAverageWindow cfg)) one)
        (dec 2 10) in
  let stable :=
    ge (of_nat (length speedHistory)) (movingAverageWindow cfg)
    && lt (spec_variance speedHistory) (dec 5 10) in
  clamp
    (plus_if stable (dec 1 10)
       (plus_if (spec_consistent cfg speed acceleration activity)
          (spec_bonus activity)
          (add (dec 5 10) sufficiency)))
    zero one.

End SpecConfidence.

(** The newest magnitude exceeds the most recent history sample by more
    than the step threshold and exceeds the walking threshold; false
    with fewer than two samples. *)
Definition spec_detectStep (cfg : ClassifierConfig)
  (accelerationHistory : list number) (m : number) : bool :=
  if (length accelerationHistory <? 2)%nat then false
  else
    gt m (add (List.last accelerationHistory NaN) (stepDetectionThreshold cfg))
    && gt m (walkingAccelerationThreshold cfg).

(** ** Sequences of calls *)

(** The buffer after pushing [values] in order, with the window of
    [this]. *)
Definition pushAll (this : ActivityClassifierService)
  (values : list number) (history : list number) : list number :=
  fold_left (fun h v => result (updateHistory h v) this) values history.

(** A run of [updateHistories] calls, one per pair of speed and
    acceleration magnitude. *)
Fixpoint feed (samples : list (number * number)) : Method unit :=
  match samples with
  | [] => ret tt
  | (speed, acceleration) :: rest =>
      updateHistories speed acceleration ;;; feed rest
  end.

(** A call of one of the three read-only operations, and what it
    returns. *)
Inductive Query :=
| AskActivity (speed acceleration : number)
| AskConfidence (speed acceleration : number) (activity : ActivityType)
| AskStep (acceleration : number).

Inductive Answer :=
| IsActivity (activity : ActivityType)
| IsConfidence (confidence : number)
| IsStep (fired : bool).

Section Queries.
Context `{MathLib}.

Definition ask (q : Query) : Method Answer :=
  match q with
  | AskActivity speed acceleration =>
      a <- getActivity speed acceleration ;; ret (IsActivity a)
  | AskConfidence speed acceleration activity =>
      c <- getConfidence speed acceleration activity ;; ret (IsConfidence c)
  | AskStep acceleration =>
      b <- detectStep acceleration ;; ret (IsStep b)
  end.

Fixpoint askAll (qs : list Query) : Method (list Answer) :=
  match qs with
  | [] => ret []
  | q :: qs' =>
      a <- ask q ;;
      rest <- askAll qs' ;;
      ret (a :: rest)
  end.

End Queries.

(** A binary64 value: the mantissa and exponent are the canonical
    ones. *)
Definition is_binary64 (x : number) : bool := valid_binary prec emax x.

(** ** Assumptions on the implementation-defined functions

    The language standard fixes [Math.sin(+0) = +0] and
    [Math.atan2(+0, x) = +0] for [x > 0].  That the sine is odd and
    that the cosine of a finite number is a binary64 value of magnitude
    at most 1 hold of the libraries engines use but are not required
    by the standard. *)
Class MathLibFacts `{MathLib} : Prop := {
  sin_zero : Math_sin zero = zero;
  sin_odd : forall x, Math_sin (neg x) = neg (Math_sin x);
  cos_unit : forall x,
    is_finite x = true ->
    is_binary64 (Math_cos x) = true /\ le (Math_abs (Math_cos x)) one = true;
  atan2_zero_one : Math_atan2 zero one = zero
}.

(** First-order approximations around 0, enough to run the program on
    concrete inputs. *)
Definition firstOrderMath : MathLib := {|
  Math_sin := fun x => x;
  Math_cos := fun x => if is_finite x then one else NaN;
  Math_atan2 := fun y x => div y x;
  Math_pow := fun x _ => mul x x
|}.

(** The angle in radians as [calculateDistance] computes it. *)
Definition toRadians (degrees : number) : number :=
  div (mul degrees Math_PI) (of_Z 180).

(** A pair of latitude and longitude in degrees. *)
Definition isCoordinate (lat lon : number) : bool :=
  is_binary64 lat && is_binary64 lon
  && le (Math_abs lat) (of_Z 90) && le (Math_abs lon) (of_Z 180).

(** ** The accrual and range rules as the specification states them *)

(** The step count after an update is one more than before exactly when
    the Step Detector fired and the activity is Walking or Running, and
    is the same otherwise. *)
Definition stated_steps (fired : bool) (activity : ActivityType)
  (before after : number) : Prop :=
  after = if fired && isWalkingOrRunning activity
          then add before one else before.

(** Calories grow by [caloriesPerStep] for a step counted while
    Walking, by [caloriesPerStep + (distanceIncrement / 1000) *
    caloriesPerKmRunning] for a step counted while Running, and stay
    the same otherwise. *)
Definition stated_calories (cfg : ClassifierConfig) (counted : bool)
  (activity : ActivityType) (distanceIncrement before after : number)
  : Prop :=
  after = if counted then
            match activity with
            | WALKING => add before (caloriesPerStep cfg)
            | RUNNING =>
                add before
                  (add (caloriesPerStep cfg)
                     (mul (div distanceIncrement (of_Z 1000))
                        (caloriesPerKmRunning cfg)))
            | _ => before
            end
          else before.

(** The buffer is no longer than the window. *)
Definition stated_window (this : ActivityClassifierService)
  (buffer : list number) : Prop :=
  le (of_nat (length buffer)) (movingAverageWindow (config this)) = true.

(** ** Concrete inputs *)

(** A fix at 1 degree north, 1 degree east, moving at 1 m/s. *)
Definition exampleFix : LocationData := {|
  loc_latitude := of_Z 1; loc_longitude := of_Z 1;
  loc_speed := Some (of_Z 1); loc_timestamp := zero;
  loc_altitude := None; loc_accuracy := None; loc_heading := None
|}.

(** An acceleration of 1 g along the first axis. *)
Definition exampleSample : AccelerometerData := {|
  acc_x := one; acc_y := zero; acc_z := zero; acc_magnitude := one;
  acc_timestamp := zero
|}.

Definition exampleLog : ActivityLog := {|
  log_id := "log_1"; log_activity := WALKING; log_confidence := dec 7 10;
  log_location := exampleFix; log_acceleration := exampleSample;
  log_timestamp := zero; log_speed := one
|}.

(** The statistics [startTracking] installs. *)
Definition freshStats (id : string) (start : number) : SessionStats := {|
  sessionId := id; startTime := start; endTime := None; duration := zero;
  distance := zero; steps := zero; calories := zero; averageSpeed := zero;
  maxSpeed := zero; activities := ∅
|}.

(** The tracker hook right after [startTracking]. *)
Definition exampleTracker : HookActivityClassifier.State := {|
  HookActivityClassifier.classifier := new_ActivityClassifierService;
  HookActivityClassifier.sessionStats := freshStats "session_1" zero;
  HookActivityClassifier.activityLogs := [];
  HookActivityClassifier.currentActivity := UNKNOWN;
  HookActivityClassifier.confidence := zero;
  HookActivityClassifier.location := None;
  HookActivityClassifier.acceleration := None;
  HookActivityClassifier.lastLocationRef := None
|}.

Definition exampleTick : HookActivityClassifier.Tick := {|
  HookActivityClassifier.sampleTime := of_Z 1000;
  HookActivityClassifier.logId := "log_1";
  HookActivityClassifier.logTime := of_Z 1000;
  HookActivityClassifier.statsTime := of_Z 1000
|}.

(** A service whose window has been set to 0, and one whose window has
    been set to -1. *)
Definition windowOf (w : number) : PartialClassifierConfig := {|
  p_idleSpeedThreshold := None; p_walkingSpeedThreshold := None;
  p_runningSpeedThreshold := None; p_vehicleSpeedThreshold := None;
  p_idleAccelerationThreshold := None;
  p_walkingAccelerationThreshold := None;
  p_runningAccelerationThreshold := None;
  p_movingAverageWindow := Some w;
  p_confidenceThreshold := None; p_stepDetectionThreshold := None;
  p_caloriesPerStep := None; p_caloriesPerKmRunning := None;
  p_caloriesPerKmVehicle := None
|}.

Definition serviceWithWindow (w : number) : ActivityClassifierService :=
  after (setConfig (windowOf w)) new_ActivityClassifierService.

(** The default service after five samples at 6 m/s and 0.7 g. *)
Definition warmService : ActivityClassifierService :=
  after (feed [(of_Z 6, dec 7 10); (of_Z 6, dec 7 10); (of_Z 6, dec 7 10);
               (of_Z 6, dec 7 10); (of_Z 6, dec 7 10)])
    new_ActivityClassifierService.

(** ** Counters and selections of the batch statistics *)

(** A partial configuration with every field absent. *)
Definition noOverrides : PartialClassifierConfig := {|
  p_idleSpeedThreshold := None; p_walkingSpeedThreshold := None;
  p_runningSpeedThreshold := None; p_vehicleSpeedThreshold := None;
  p_idleAccelerationThreshold := None;
  p_walkingAccelerationThreshold := None;
  p_runningAccelerationThreshold := None;
  p_movingAverageWindow := None;
  p_confidenceThreshold := None; p_stepDetectionThreshold := None;
  p_caloriesPerStep := None; p_caloriesPerKmRunning := None;
  p_caloriesPerKmVehicle := None
|}.

(** The value of a counter that starts at 0 and is incremented [k]
    times with [++]. *)
Definition tally (k : nat) : number := Nat.iter k (fun n => add n one) zero.

(** The log entries the batch step loop counts: the detector of the
    service fires on the stored magnitude and the stored activity is
    Walking or Running. *)
Definition countsAsStep (this : ActivityClassifierService)
  (entry : ActivityLog) : bool :=
  result (detectStep (acc_magnitude (log_acceleration entry))) this
  && isWalkingOrRunning (log_activity entry).

(** The speeds the batch statistics average: the positive ones. *)
Definition positiveSpeeds (logs : list ActivityLog) : list number :=
  List.filter (fun s => gt s zero) (map log_speed logs).

(** ** controllers/ActivityControl.ts: [processActivityData] *)

Record ProcessedActivity := {
  pa_activity : ActivityType;
  pa_confidence : number;
  pa_distance : number
}.

Section ProcessActivityData.
Context `{MathLib}.

(** [location] is given by its latitude, longitude and nullable speed,
    [lastLocation] by its latitude and longitude.  No statement of the
    [try] block throws, so the [catch] branch, which answers
    [UNKNOWN] with confidence 0 and distance 0, is never entered. *)
Definition processActivityData (latitude longitude : number)
  (locationSpeed : option number) (x y z : number)
  (lastLocation : option (number * number)) : Method ProcessedActivity :=
  let magnitude := calculateMagnitude x y z in
  let speed := Math_abs (default zero locationSpeed) in
  updateHistories speed magnitude ;;;
  activity <- getActivity speed magnitude ;;
  confidence <- getConfidence speed magnitude activity ;;
  let distance :=
    match lastLocation with
    | Some (lastLatitude, lastLongitude) =>
        calculateDistance lastLatitude lastLongitude latitude longitude
    | None => zero
    end in
  ret {| pa_activity := activity; pa_confidence := confidence;
         pa_distance := distance |}.

End ProcessActivityData.

(** ** models/ActivityModel.ts: saved routes and totals *)

Record SavedRoute := {
  route_id : string;
  route_name : string;
  route_date : number;
  route_logs : list ActivityLog;
  route_stats : SessionStats
}.

Record TotalStats := {
  totalDistance : number;
  totalSteps : number;
  totalCalories : number;
  totalSessions : number;
  totalDuration : number;
  lastUpdated : number
}.

(** ** services/StorageService.ts

    AsyncStorage is a store of strings under string keys.  A store that
    is not [available] rejects every call; an available one performs
    it.  [JSON.stringify] and [JSON.parse] are the platform's: they are
    taken as a pair of functions per stored type, [parse] answering
    [None] where [JSON.parse] throws. *)

Inductive Outcome (A : Type) :=
| Resolved (value : A)
| Rejected (message : string).
Arguments Resolved {A} value.
Arguments Rejected {A} message.

Record AsyncStorage := {
  items : gmap string string;
  available : bool
}.

Class JSON (T : Type) := {
  stringify : T -> string;
  parse : string -> option T
}.

(** The values that survive being written and read back. *)
Definition survives {T} `{JSON T} (value : T) : Prop :=
  parse (stringify value) = Some value.

Definition KEYS_LOGS : string := "@activity_logs".
Definition KEYS_SESSION_STATS : string := "@session_stats".
Definition KEYS_TOTAL_STATS : string := "@total_stats".
Definition KEYS_ROUTES : string := "@saved_routes".

Definition getItem (key : string) (device : AsyncStorage)
  : Outcome (option string) :=
  if available device then Resolved (items device !! key)
  else Rejected "AsyncStorage".

Definition setItem (key value : string) (device : AsyncStorage)
  : Outcome AsyncStorage :=
  if available device
  then Resolved {| items := <[key := value]> (items device);
                   available := available device |}
  else Rejected "AsyncStorage".

Definition multiRemove (keys : list string) (device : AsyncStorage)
  : Outcome AsyncStorage :=
  if available device
  then Resolved {| items := foldr delete (items device) keys;
                   available := available device |}
  else Rejected "AsyncStorage".

(** [try { await call } catch { throw new Error(message) }] *)
Definition orThrow {A} (call : Outcome A) (message : string) : Outcome A :=
  match call with
  | Resolved value => Resolved value
  | Rejected _ => Rejected message
  end.

Section StorageService.
Context {jsonLogs : JSON (list ActivityLog)} {jsonStats : JSON SessionStats}
  {jsonTotals : JSON TotalStats} {jsonRoutes : JSON (list SavedRoute)}.

(** [jsonValue != null ? JSON.parse(jsonValue) : fallback], inside a
    [try] whose [catch] returns [fallback]. *)
Definition readOr {T} `{JSON T} (key : string) (fallback : T)
  (device : AsyncStorage) : T :=
  match getItem key device with
  | Resolved (Some jsonValue) =>
      match parse jsonValue with
      | Some value => value
      | None => fallback
      end
  | Resolved None => fallback
  | Rejected _ => fallback
  end.

Definition saveLogs (logs : list ActivityLog) (device : AsyncStorage)
  : Outcome AsyncStorage :=
  orThrow (setItem KEYS_LOGS (stringify logs) device)
    "No se pudieron guardar los logs de actividad".

Definition readLogs (device : AsyncStorage) : list ActivityLog :=
  readOr KEYS_LOGS [] device.

Definition saveSessionStats (stats : SessionStats) (device : AsyncStorage)
  : Outcome AsyncStorage :=
  orThrow (setItem KEYS_SESSION_STATS (stringify stats) device)
    "No se pudieron guardar las estadísticas de sesión".

(** The same with [null] as the fallback. *)
Definition readOrNull {T} `{JSON T} (key : string) (device : AsyncStorage)
  : option T :=
  match getItem key device with
  | Resolved (Some jsonValue) => parse jsonValue
  | Resolved None => None
  | Rejected _ => None
  end.

Definition readSessionStats (device : AsyncStorage) : option SessionStats :=
  readOrNull KEYS_SESSION_STATS device.

Definition saveTotalStats (stats : TotalStats) (device : AsyncStorage)
  : Outcome AsyncStorage :=
  orThrow (setItem KEYS_TOTAL_STATS (stringify stats) device)
    "No se pudieron guardar las estadísticas totales".

Definition readTotalStats (device : AsyncStorage) : option TotalStats :=
  readOrNull KEYS_TOTAL_STATS device.

(** [(currentStats?.field || 0)] *)
Definition storedOrZero (currentStats : option TotalStats)
  (field : TotalStats -> number) : number :=
  match currentStats with
  | Some current => or_else (field current) zero
  | None => zero
  end.

(** The totals [updateTotalStats] writes; [now] is the clock reading. *)
Definition updatedTotals (now : number) (currentStats : option TotalStats)
  (sessionStats : SessionStats) : TotalStats := {|
  totalDistance :=
    add (storedOrZero currentStats totalDistance) (distance sessionStats);
  totalSteps := add (storedOrZero currentStats totalSteps) (steps sessionStats);
  totalCalories :=
    add (storedOrZero currentStats totalCalories) (calories sessionStats);
  totalSessions := add (storedOrZero currentStats totalSessions) one;
  totalDuration :=
    add (storedOrZero currentStats totalDuration) (duration sessionStats);
  lastUpdated := now
|}.

Definition updateTotalStats (now : number) (sessionStats : SessionStats)
  (device : AsyncStorage) : Outcome AsyncStorage :=
  let currentStats := readTotalStats device in
  orThrow (saveTotalStats (updatedTotals now currentStats sessionStats) device)
    "No se pudieron actualizar las estadísticas totales".

Definition readRoutes (device : AsyncStorage) : list SavedRoute :=
  readOr KEYS_ROUTES [] device.

Definition saveRoute (route : SavedRoute) (device : AsyncStorage)
  : Outcome AsyncStorage :=
  let routes := readRoutes device in
  let routes := routes ++ [route] in
  orThrow (setItem KEYS_ROUTES (stringify routes) device)
    "No se pudo guardar la ruta".

(** [routes.find(route => route.id === id) || null] *)
Definition readRoute (id : string) (device : AsyncStorage)
  : option SavedRoute :=
  find (fun route => String.eqb (route_id route) id) (readRoutes device).

Definition deleteRoute (id : string) (device : AsyncStorage)
  : Outcome AsyncStorage :=
  let routes := readRoutes device in
  let filteredRoutes :=
    List.filter (fun route => negb (String.eqb (route_id route) id)) routes in
  orThrow (setItem KEYS_ROUTES (stringify filteredRoutes) device)
    "No se pudo eliminar la ruta".

Definition clearAll (device : AsyncStorage) : Outcome AsyncStorage :=
  orThrow
    (multiRemove
       [KEYS_LOGS; KEYS_SESSION_STATS; KEYS_TOTAL_STATS; KEYS_ROUTES] device)
    "No se pudieron limpiar los datos".

End StorageService.

(** ** services/Routeservice.ts: saving and reading routes *)

Section RouteService.
Context {jsonLogs : JSON (list ActivityLog)} {jsonStats : JSON SessionStats}
  {jsonTotals : JSON TotalStats} {jsonRoutes : JSON (list SavedRoute)}.

(** [new Date(t).toLocaleString()] depends on the device's locale. *)
Variable toLocaleString : number -> string.

(** [name || fallback] on an optional string: a missing or empty name
    is falsy. *)
Definition nameOr (name : option string) (fallback : string) : string :=
  match name with
  | Some text => if String.eqb text "" then fallback else text
  | None => fallback
  end.

(** The route [saveRoute] builds; [routeId] is the text it makes from
    the clock and [Math.random()]. *)
Definition routeOf (routeId : string) (logs : list ActivityLog)
  (stats : SessionStats) (name : option string) : SavedRoute := {|
  route_id := routeId;
  route_name := nameOr name ("Ruta " +:+ toLocaleString (startTime stats));
  route_date := startTime stats;
  route_logs := logs;
  route_stats := stats
|}.

(** [now] is the clock reading [updateTotalStats] takes. *)
Definition RouteService_saveRoute (routeId : string) (now : number)
  (logs : list ActivityLog) (stats : SessionStats) (name : option string)
  (device : AsyncStorage) : Outcome (SavedRoute * AsyncStorage) :=
  let route := routeOf routeId logs stats name in
  match saveRoute route device with
  | Rejected _ => Rejected "No se pudo guardar la ruta"
  | Resolved device1 =>
      match updateTotalStats now stats device1 with
      | Rejected _ => Rejected "No se pudo guardar la ruta"
      | Resolved device2 => Resolved (route, device2)
      end
  end.

(** [getRoutes], [getRoute] and [deleteRoute] pass on to the storage
    service. *)
Definition getRoutes (device : AsyncStorage) : list SavedRoute :=
  readRoutes device.

Definition getRoute (id : string) (device : AsyncStorage)
  : option SavedRoute := readRoute id device.

Definition RouteService_deleteRoute (id : string) (device : AsyncStorage)
  : Outcome AsyncStorage :=
  orThrow (deleteRoute id device) "No se pudo eliminar la ruta".

(** ** controllers/ActivityControl.ts: sessions and stored data *)

(** [endSession]: the error of the [try] block is thrown again as it
    is. *)
Definition endSession (routeId : string) (now : number)
  (logs : list ActivityLog) (stats : SessionStats) (device : AsyncStorage)
  : Outcome (SavedRoute * AsyncStorage) :=
  if (length logs =? 0)%nat then Rejected "No hay datos para guardar"
  else
    match RouteService_saveRoute routeId now logs stats None device with
    | Rejected message => Rejected message
    | Resolved (savedRoute, device1) =>
        match saveLogs logs device1 with
        | Rejected message => Rejected message
        | Resolved device2 =>
            match saveSessionStats stats device2 with
            | Rejected message => Rejected message
            | Resolved device3 => Resolved (savedRoute, device3)
            end
        end
    end.

(** [clearAllData]: the storage is cleared, then the classifier is
    reset; a failure of the first leaves the classifier alone. *)
Definition clearAllData (device : AsyncStorage)
  (service : ActivityClassifierService)
  : Outcome (AsyncStorage * ActivityClassifierService) :=
  match clearAll device with
  | Rejected message => Rejected message
  | Resolved device' => Resolved (device', after reset service)
  end.

End RouteService.

(** ** hooks/ActivityClassifier.ts: starting and stopping a session *)

(** The hook's state with the flags the listener does not read. *)
Record Tracker := {
  tracker_hook : HookActivityClassifier.State;
  tracker_isActive : bool;
  tracker_hasPermission : bool;
  tracker_error : option string
}.

Definition withClassifier (c : ActivityClassifierService)
  (st : HookActivityClassifier.State) : HookActivityClassifier.State :=
  {| HookActivityClassifier.classifier := c;
     HookActivityClassifier.sessionStats :=
       HookActivityClassifier.sessionStats st;
     HookActivityClassifier.activityLogs :=
       HookActivityClassifier.activityLogs st;
     HookActivityClassifier.currentActivity :=
       HookActivityClassifier.currentActivity st;
     HookActivityClassifier.confidence := HookActivityClassifier.confidence st;
     HookActivityClassifier.location := HookActivityClassifier.location st;
     HookActivityClassifier.acceleration :=
       HookActivityClassifier.acceleration st;
     HookActivityClassifier.lastLocationRef :=
       HookActivityClassifier.lastLocationRef st |}.

Definition withSessionStats (stats : SessionStats)
  (st : HookActivityClassifier.State) : HookActivityClassifier.State :=
  {| HookActivityClassifier.classifier := HookActivityClassifier.classifier st;
     HookActivityClassifier.sessionStats := stats;
     HookActivityClassifier.activityLogs :=
       HookActivityClassifier.activityLogs st;
     HookActivityClassifier.currentActivity :=
       HookActivityClassifier.currentActivity st;
     HookActivityClassifier.confidence := HookActivityClassifier.confidence st;
     HookActivityClassifier.location := HookActivityClassifier.location st;
     HookActivityClassifier.acceleration :=
       HookActivityClassifier.acceleration st;
     HookActivityClassifier.lastLocationRef :=
       HookActivityClassifier.lastLocationRef st |}.

(** [{...sessionStats, endTime: Date.now(),
      duration: Date.now() - sessionStats.startTime}] with its two
    clock readings. *)
Definition finalStatsOf (endNow durationNow : number)
  (sessionStats : SessionStats) : SessionStats := {|
  sessionId := sessionId sessionStats;
  startTime := startTime sessionStats;
  endTime := Some endNow;
  duration := sub durationNow (startTime sessionStats);
  distance := distance sessionStats; steps := steps sessionStats;
  calories := calories sessionStats;
  averageSpeed := averageSpeed sessionStats;
  maxSpeed := maxSpeed sessionStats;
  activities := activities sessionStats
|}.

Section TrackerSession.
Context {jsonLogs : JSON (list ActivityLog)} {jsonStats : JSON SessionStats}
  {jsonTotals : JSON TotalStats} {jsonRoutes : JSON (list SavedRoute)}.
Variable toLocaleString : number -> string.

(** [startTracking].  [granted] is the answer of the permission request
    made when the hook has no permission yet, [locationError] the
    message of the [Error] thrown while the location service and the
    accelerometer are started, if one is thrown; [sessionId] and [now]
    come from the clock and [Math.random()]. *)
Definition startTracking (granted : bool) (locationError : option string)
  (sessionId : string) (now : number) (t : Tracker)
  : Tracker * Outcome unit :=
  let permitted := if tracker_hasPermission t then true else granted in
  if negb permitted then
    ({| tracker_hook := tracker_hook t; tracker_isActive := false;
        tracker_hasPermission := permitted;
        tracker_error := Some "Permisos de ubicación no otorgados" |},
     Rejected "Permisos de ubicación no otorgados")
  else
    let hook := tracker_hook t in
    let started := {|
      HookActivityClassifier.classifier :=
        after reset (HookActivityClassifier.classifier hook);
      HookActivityClassifier.sessionStats := freshStats sessionId now;
      HookActivityClassifier.activityLogs := [];
      HookActivityClassifier.currentActivity :=
        HookActivityClassifier.currentActivity hook;
      HookActivityClassifier.confidence :=
        HookActivityClassifier.confidence hook;
      HookActivityClassifier.location := HookActivityClassifier.location hook;
      HookActivityClassifier.acceleration :=
        HookActivityClassifier.acceleration hook;
      HookActivityClassifier.lastLocationRef := None |} in
    match locationError with
    | None =>
        ({| tracker_hook := started; tracker_isActive := true;
            tracker_hasPermission := permitted; tracker_error := None |},
         Resolved tt)
    | Some message =>
        ({| tracker_hook := started; tracker_isActive := false;
            tracker_hasPermission := permitted;
            tracker_error := Some message |},
         Rejected message)
    end.

(** [stopTracking], on the statistics and the log of the latest
    render.  [endNow] and [durationNow] are the two clock readings of
    the final statistics; [routeId] and [totalsNow] are what
    [RouteService.saveRoute] takes from the clock and
    [Math.random()]. *)
Definition stopTracking (endNow durationNow : number) (routeId : string)
  (totalsNow : number) (t : Tracker) (device : AsyncStorage)
  : Tracker * Outcome AsyncStorage :=
  let hook := tracker_hook t in
  let sessionStats := HookActivityClassifier.sessionStats hook in
  let activityLogs := HookActivityClassifier.activityLogs hook in
  let finalStats := finalStatsOf endNow durationNow sessionStats in
  let hook1 := withSessionStats finalStats hook in
  let saved :=
    if (0 <? length activityLogs)%nat then
      match RouteService_saveRoute toLocaleString routeId totalsNow
              activityLogs finalStats None device with
      | Resolved (_, device') => Resolved device'
      | Rejected message => Rejected message
      end
    else Resolved device in
  match saved with
  | Resolved device' =>
      ({| tracker_hook :=
            withClassifier
              (after reset (HookActivityClassifier.classifier hook1)) hook1;
          tracker_isActive := false;
          tracker_hasPermission := tracker_hasPermission t;
          tracker_error := tracker_error t |},
       Resolved device')
  | Rejected message =>
      ({| tracker_hook := hook1; tracker_isActive := tracker_isActive t;
          tracker_hasPermission := tracker_hasPermission t;
          tracker_error := Some "Error guardando datos de sesión" |},
       Rejected message)
  end.

End TrackerSession.

(** ** JSON pairs for concrete runs *)

(** One character per element on writing, as many copies of [sample]
    on reading: lists of copies of [sample] survive. *)
Definition repeatJSON {A} (sample : A) : JSON (list A) := {|
  stringify := fun l => fold_right (fun _ text => ("x" +:+ text)%string) "" l;
  parse := fun text => Some (repeat sample (String.length text))
|}.

(** Every text reads as [sample]: [sample] survives. *)
Definition constJSON {A} (sample : A) : JSON A := {|
  stringify := fun _ => "x";
  parse := fun _ => Some sample
|}.

(** ** Concrete stores and sessions *)

(** A store with nothing in it, one that rejects every call and one
    that holds a two-character text under the routes key. *)
Definition emptyDevice : AsyncStorage := {| items := ∅; available := true |}.

Definition brokenDevice : AsyncStorage := {| items := ∅; available := false |}.

Definition twoRoutesDevice : AsyncStorage :=
  {| items := {[ KEYS_ROUTES := "xx" ]}; available := true |}.

Definition exampleLocale (t : number) : string := "1/1/1970".

(** The statistics of a session stopped at the instant it started,
    the route made of them with [exampleLog] as the log, and the
    totals after that session. *)
Definition exampleStats : SessionStats :=
  finalStatsOf zero zero (freshStats "session_1" zero).

Definition exampleRoute : SavedRoute :=
  routeOf exampleLocale "route_1" [exampleLog] exampleStats None.

Definition exampleTotals : TotalStats := updatedTotals zero None exampleStats.

Definition exampleLogsJSON : JSON (list ActivityLog) := repeatJSON exampleLog.
Definition exampleStatsJSON : JSON SessionStats := constJSON exampleStats.
Definition exampleTotalsJSON : JSON TotalStats := constJSON exampleTotals.
Definition exampleRoutesJSON : JSON (list SavedRoute) :=
  repeatJSON exampleRoute.

(** A fix on the equator. *)
Definition equatorFix : LocationData := {|
  loc_latitude := zero; loc_longitude := of_Z 1;
  loc_speed := Some (of_Z 1); loc_timestamp := zero;
  loc_altitude := None; loc_accuracy := None; loc_heading := None
|}.

(** The hook before the first session, without permission, and the
    hook of a running session that has recorded [exampleLog]. *)
Definition idleSession : Tracker := {|
  tracker_hook := exampleTracker; tracker_isActive := false;
  tracker_hasPermission := false; tracker_error := None
|}.

Definition recordedSession : Tracker := {|
  tracker_hook := {|
    HookActivityClassifier.classifier := warmService;
    HookActivityClassifier.sessionStats := freshStats "session_1" zero;
    HookActivityClassifier.activityLogs := [exampleLog];
    HookActivityClassifier.currentActivity := WALKING;
    HookActivityClassifier.confidence := dec 7 10;
    HookActivityClassifier.location := Some exampleFix;
    HookActivityClassifier.acceleration := Some exampleSample;
    HookActivityClassifier.lastLocationRef := Some exampleFix |};
  tracker_isActive := true; tracker_hasPermission := true;
  tracker_error := None
|}.

(** * Facts about numbers *)

Section Comparison.

Lemma compare_antisym (a b : number) :
  SFcompare b a = option_map CompOpp (SFcompare a b).
Proof.
  destruct a as [sa|sa| |sa ma ea], b as [sb|sb| |sb mb eb]; simpl;
    try destruct sa; try destruct sb; simpl; try reflexivity.
  - rewrite (Z.compare_antisym ea eb).
    destruct (ea ?= eb); simpl; try reflexivity.
    now rewrite (Pos.compare_cont_antisym ma mb Eq).
  - rewrite (Z.compare_antisym ea eb).
    destruct (ea ?= eb); simpl; try reflexivity.
    now rewrite (Pos.compare_cont_antisym ma mb Eq).
Qed.

Lemma compare_None (a b : number) :
  SFcompare a b = None <-> is_nan a = true \/ is_nan b = true.
Proof.
  destruct a as [sa|sa| |sa ma ea], b as [sb|sb| |sb mb eb]; simpl;
    try destruct sa; try destruct sb; simpl;
    split; intros; try discriminate; try tauto;
    try (destruct H; discriminate); auto.
Qed.

Lemma lt_le (a b : number) : lt a b = true -> le a b = true.
Proof.
  unfold lt, le, SFltb, SFleb.
  destruct (SFcompare a b) as [[]|]; congruence.
Qed.

Lemma not_lt_le (a b : number) :
  is_nan a = false -> is_nan b = false -> lt a b = false -> le b a = true.
Proof.
  intros Ha Hb. unfold lt, le, SFltb, SFleb.
  rewrite (compare_antisym a b).
  destruct (SFcompare a b) as [[]|] eqn:E; simpl; try congruence.
  apply compare_None in E. destruct E; congruence.
Qed.

Lemma le_not_nan (a b : number) :
  le a b = true -> is_nan a = false /\ is_nan b = false.
Proof.
  unfold le, SFleb.
  destruct a, b; simpl; try discriminate; auto.
Qed.

Lemma Math_max_nan_l (b : number) : Math_max NaN b = NaN.
Proof. reflexivity. Qed.

Lemma Math_min_nan_l (b : number) : Math_min NaN b = NaN.
Proof. reflexivity. Qed.

Lemma Math_min_not_nan (a b : number) :
  is_nan a = false -> is_nan b = false -> is_nan (Math_min a b) = false.
Proof.
  intros Ha Hb. unfold Math_min.
  destruct (SFcompare a b) as [[]|] eqn:E; auto.
  - destruct a as [[]| | |]; auto.
  - apply compare_None in E. destruct E; congruence.
Qed.

(** [Math.max(x, 0)] is a number not below 0 unless [x] is NaN. *)
Lemma Math_max_zero (x : number) :
  is_nan x = false -> le zero (Math_max x zero) = true.
Proof.
  destruct x as [[]|[]| |[] m e]; simpl; intros; try reflexivity;
    discriminate.
Qed.

(** [Math.min(m, 1)] stays in the interval when [m] is not below 0. *)
Lemma Math_min_one (m : number) :
  le zero m = true -> between zero one (Math_min m one).
Proof.
  intros Hm. unfold between, Math_min.
  destruct (SFcompare m one) as [[]|] eqn:E.
  - assert (le m one = true) by (unfold le, SFleb; now rewrite E).
    destruct m as [[]| | |]; auto; split; auto.
  - split; auto. unfold le, SFleb. now rewrite E.
  - split; reflexivity.
  - apply compare_None in E. apply le_not_nan in Hm.
    destruct E as [E|E]; [|discriminate]. destruct Hm; congruence.
Qed.

Lemma clamp_between (x : number) :
  is_nan x = false -> between zero one (clamp x zero one).
Proof.
  intros Hx. unfold clamp. apply Math_min_one. now apply Math_max_zero.
Qed.

Lemma clamp_nan : clamp NaN zero one = NaN.
Proof. reflexivity. Qed.

Lemma between_not_nan (lo hi x : number) :
  between lo hi x -> is_nan x = false.
Proof. intros [H _]. now apply le_not_nan in H. Qed.

End Comparison.

Section Rounding.

Lemma shr_1_nonneg (r : shr_record) : 0 <= shr_m r -> 0 <= shr_m (shr_1 r).
Proof.
  destruct r as [m a b]. simpl.
  destruct m as [|[p|p|]|p]; simpl; intros; lia.
Qed.

Lemma iter_shr_1_nonneg (p : positive) (r : shr_record) :
  0 <= shr_m r -> 0 <= shr_m (SpecFloat.iter_pos shr_1 p r).
Proof.
  revert r. induction p; intros r Hr; simpl; auto using shr_1_nonneg.
Qed.

Lemma shr_nonneg (r : shr_record) (e n : Z) :
  0 <= shr_m r -> 0 <= shr_m (fst (shr r e n)).
Proof.
  destruct n; simpl; auto using iter_shr_1_nonneg.
Qed.

Lemma shr_record_of_loc_m (m : Z) (l : location) :
  shr_m (shr_record_of_loc m l) = m.
Proof. now destruct l as [|[]]. Qed.

Lemma shr_fexp_nonneg (m e : Z) (l : location) :
  0 <= m -> 0 <= shr_m (fst (shr_fexp prec emax m e l)).
Proof.
  intros Hm. unfold shr_fexp. apply shr_nonneg.
  now rewrite shr_record_of_loc_m.
Qed.

Lemma round_nearest_even_nonneg (m : Z) (l : location) :
  0 <= m -> 0 <= round_nearest_even m l.
Proof.
  intros Hm. destruct l as [|[]]; simpl; try lia.
  destruct (Z.even m); lia.
Qed.

(** Rounding a non-negative mantissa never produces NaN. *)
Lemma binary_round_aux_not_nan (s : bool) (m e : Z) (l : location) :
  0 <= m -> is_nan (binary_round_aux prec emax s m e l) = false.
Proof.
  intros Hm. unfold binary_round_aux.
  pose proof (shr_fexp_nonneg m e l Hm) as H1.
  destruct (shr_fexp prec emax m e l) as [r1 e1]. simpl in H1.
  pose proof (shr_fexp_nonneg
                (round_nearest_even (shr_m r1) (loc_of_shr_record r1))
                e1 loc_Exact (round_nearest_even_nonneg _ _ H1)) as H2.
  destruct (shr_fexp prec emax _ e1 loc_Exact) as [r2 e2]. simpl in H2.
  destruct (shr_m r2); try lia; try reflexivity.
  now destruct (e2 <=? emax - prec).
Qed.

Lemma binary_round_not_nan (s : bool) (m : positive) (e : Z) :
  is_nan (binary_round prec emax s m e) = false.
Proof.
  unfold binary_round. destruct (shl_align _ _ _) as [mz ez].
  now apply binary_round_aux_not_nan.
Qed.

Lemma binary_normalize_not_nan (m e : Z) (s : bool) :
  is_nan (binary_normalize prec emax m e s) = false.
Proof.
  destruct m; simpl; auto using binary_round_not_nan.
Qed.

Lemma of_Z_not_nan (z : Z) : is_nan (of_Z z) = false.
Proof. apply binary_normalize_not_nan. Qed.

Lemma of_nat_not_nan (n : nat) : is_nan (of_nat n) = false.
Proof. apply of_Z_not_nan. Qed.

(** Adding a finite number to a number gives a number. *)
Lemma add_not_nan (x y : number) :
  is_nan x = false -> is_finite y = true -> is_nan (add x y) = false.
Proof.
  destruct x as [sx|sx| |sx mx ex], y as [sy|sy| |sy my ey]; simpl;
    try discriminate; intros _ _; try reflexivity.
  - now destruct sx, sy.
  - apply binary_normalize_not_nan.
Qed.

(** Multiplying a number by a finite number other than zero gives a
    number. *)
Lemma mul_not_nan (x : number) (sy : bool) (my : positive) (ey : Z) :
  is_nan x = false -> is_nan (mul x (S754_finite sy my ey)) = false.
Proof.
  destruct x as [sx|sx| |sx mx ex]; simpl; try discriminate; intros _;
    try reflexivity.
  apply binary_round_aux_not_nan. lia.
Qed.

Lemma SFdiv_core_binary_nonneg (m1 : positive) (e1 : Z) (m2 : positive)
  (e2 : Z) :
  0 <= fst (fst (SFdiv_core_binary prec emax (Zpos m1) e1 (Zpos m2) e2)).
Proof.
  unfold SFdiv_core_binary.
  set (s := _ - _ - Z.min _ _).
  set (m' := match s with Z0 => _ | Zpos _ => _ | Zneg _ => _ end).
  assert (Hm : 0 <= m').
  { subst m'. destruct s; try lia. apply Z.shiftl_nonneg. lia. }
  pose proof (Z_div_mod m' (Zpos m2) eq_refl) as D.
  destruct (Z.div_eucl m' (Zpos m2)) as [q r]. simpl.
  destruct D as [D1 D2]. nia.
Qed.

(** Dividing a number by a finite number other than zero gives a
    number. *)
Lemma div_not_nan (x : number) (sy : bool) (my : positive) (ey : Z) :
  is_nan x = false -> is_nan (div x (S754_finite sy my ey)) = false.
Proof.
  destruct x as [sx|sx| |sx mx ex]; simpl; try discriminate; intros _;
    try reflexivity.
  pose proof (SFdiv_core_binary_nonneg mx ex my ey) as Hq.
  destruct (SFdiv_core_binary _ _ _ _ _ _) as [[q e] l]. simpl in Hq.
  now apply binary_round_aux_not_nan.
Qed.

End Rounding.

Section Magnitude.

Lemma digits2_pos_bounds (p : positive) :
  2 ^ (Zpos (digits2_pos p) - 1) <= Zpos p < 2 ^ Zpos (digits2_pos p).
Proof.
  induction p as [p IH|p IH|]; simpl digits2_pos.
  - rewrite Pos2Z.inj_succ.
    replace (Z.succ (Zpos (digits2_pos p)) - 1) with
      (Z.succ (Zpos (digits2_pos p) - 1)) by lia.
    rewrite !Z.pow_succ_r by lia. lia.
  - rewrite Pos2Z.inj_succ.
    replace (Z.succ (Zpos (digits2_pos p)) - 1) with
      (Z.succ (Zpos (digits2_pos p) - 1)) by lia.
    rewrite !Z.pow_succ_r by lia. lia.
  - simpl. lia.
Qed.

Lemma Zdigits2_nonneg (m : Z) : 0 <= Zdigits2 m.
Proof. destruct m; simpl; lia. Qed.

Lemma Zdigits2_le (m k : Z) :
  0 <= m -> 0 <= k -> m < 2 ^ k -> Zdigits2 m <= k.
Proof.
  intros Hm Hk Hlt. destruct m as [|p|p]; simpl; try lia.
  destruct (digits2_pos_bounds p) as [Hlo _].
  assert (2 ^ (Zpos (digits2_pos p) - 1) < 2 ^ k) by lia.
  apply Z.pow_lt_mono_r_iff in H; lia.
Qed.

Lemma Zdigits2_gt (m : Z) : 0 <= m -> m < 2 ^ Zdigits2 m.
Proof.
  intros Hm. destruct m as [|p|p]; simpl; try lia.
  apply digits2_pos_bounds.
Qed.

Lemma shr_1_m (r : shr_record) :
  0 <= shr_m r -> shr_m (shr_1 r) = shr_m r / 2.
Proof.
  destruct r as [m a b]. simpl.
  destruct m as [|[p|p|]|p]; simpl; intros; try lia; try reflexivity.
  - rewrite Pos2Z.inj_xI. apply Z.div_unique with 1; lia.
  - rewrite Pos2Z.inj_xO. apply Z.div_unique with 0; lia.
Qed.

Lemma iter_shr_1_m (p : positive) (r : shr_record) :
  0 <= shr_m r ->
  shr_m (SpecFloat.iter_pos shr_1 p r) = shr_m r / 2 ^ Zpos p.
Proof.
  revert r. induction p as [p IH|p IH|]; intros r Hr; simpl SpecFloat.iter_pos.
  - rewrite IH, IH, shr_1_m by auto using iter_shr_1_nonneg, shr_1_nonneg.
    rewrite !Z.div_div by lia. f_equal.
    rewrite Pos2Z.inj_xI, <- !Z.pow_add_r, <- Z.pow_succ_r by lia.
    f_equal. lia.
  - rewrite IH, IH by auto using iter_shr_1_nonneg.
    rewrite !Z.div_div by lia. f_equal.
    rewrite Pos2Z.inj_xO, <- !Z.pow_add_r by lia. f_equal. lia.
  - rewrite shr_1_m by assumption. reflexivity.
Qed.

Lemma shr_fexp_bounds (m e : Z) (l : location) :
  0 <= m ->
  0 <= shr_m (fst (shr_fexp prec emax m e l))
  /\ snd (shr_fexp prec emax m e l)
     <= Z.max e (fexp prec emax (Zdigits2 m + e))
  /\ Zdigits2 (shr_m (fst (shr_fexp prec emax m e l)))
     + snd (shr_fexp prec emax m e l)
     <= Z.max (Zdigits2 m + e) (snd (shr_fexp prec emax m e l)).
Proof.
  intros Hm. split; [now apply shr_fexp_nonneg|].
  unfold shr_fexp, shr.
  destruct (fexp prec emax (Zdigits2 m + e) - e) as [|p|p] eqn:En; simpl;
    rewrite ?shr_record_of_loc_m; try lia.
  rewrite iter_shr_1_m by (rewrite shr_record_of_loc_m; exact Hm).
  rewrite shr_record_of_loc_m. split; [lia|].
  pose proof (Zdigits2_gt m Hm) as Hd.
  pose proof (Zdigits2_nonneg m) as Hd0.
  destruct (Z_le_gt_dec (Zdigits2 m) (Zpos p)) as [Hle|Hgt].
  - assert (2 ^ Zdigits2 m <= 2 ^ Zpos p)
      by (apply Z.pow_le_mono_r; lia).
    rewrite Z.div_small by lia. simpl. lia.
  - assert (m / 2 ^ Zpos p < 2 ^ (Zdigits2 m - Zpos p)).
    { apply Z.div_lt_upper_bound; [lia|].
      rewrite <- Z.pow_add_r by lia.
      now replace (Zpos p + (Zdigits2 m - Zpos p)) with (Zdigits2 m) by lia. }
    assert (0 <= m / 2 ^ Zpos p) by (apply Z.div_pos; lia).
    pose proof (Zdigits2_le (m / 2 ^ Zpos p) (Zdigits2 m - Zpos p)).
    lia.
Qed.

Lemma round_nearest_even_digits (m : Z) (l : location) :
  0 <= m -> Zdigits2 (round_nearest_even m l) <= Zdigits2 m + 1.
Proof.
  intros Hm. pose proof (Zdigits2_gt m Hm) as Hd.
  pose proof (Zdigits2_nonneg m) as Hd0.
  apply Zdigits2_le; [now apply round_nearest_even_nonneg|lia|].
  rewrite Z.pow_add_r by lia.
  destruct l as [|[]]; simpl; try destruct (Z.even m); lia.
Qed.

(** Rounding a mantissa and exponent below [2 ^ B] gives zero or a
    finite number below [2 ^ (B + 1)], as long as [B] is in the
    exponent range. *)
Lemma binary_round_aux_within (s : bool) (m e : Z) (l : location) (B : Z) :
  0 <= m -> Zdigits2 m + e <= B -> e <= B ->
  -1074 <= B -> B <= 971 ->
  magnitude_within (B + 1) (binary_round_aux prec emax s m e l).
Proof.
  intros Hm Hmag He Hlo Hhi. unfold binary_round_aux.
  pose proof (shr_fexp_bounds m e l Hm) as (H1 & H2 & H3).
  destruct (shr_fexp prec emax m e l) as [r1 e1]. simpl in H1, H2, H3.
  set (m1 := round_nearest_even (shr_m r1) (loc_of_shr_record r1)).
  assert (Hm1 : 0 <= m1) by now apply round_nearest_even_nonneg.
  pose proof (round_nearest_even_digits (shr_m r1) (loc_of_shr_record r1) H1)
    as Hd1. fold m1 in Hd1.
  pose proof (shr_fexp_bounds m1 e1 loc_Exact Hm1) as (H4 & H5 & H6).
  destruct (shr_fexp prec emax m1 e1 loc_Exact) as [r2 e2].
  simpl in H4, H5, H6.
  unfold fexp, SpecFloat.emin, prec, emax in *.
  destruct (shr_m r2) as [|m2|m2] eqn:Em2; simpl; try lia.
  assert (E : (e2 <=? 1024 - 53) = true) by (apply Z.leb_le; lia).
  rewrite E. simpl. simpl in H6. lia.
Qed.

Lemma magnitude_within_finite (B : Z) (x : number) :
  magnitude_within B x -> is_finite x = true.
Proof. destruct x; simpl; tauto. Qed.

Lemma mul_within (x y : number) (Bx By : Z) :
  magnitude_within Bx x -> magnitude_within By y ->
  -1074 <= Bx + By -> Bx + By <= 971 ->
  magnitude_within (Bx + By + 1) (mul x y).
Proof.
  destruct x as [sx|sx| |sx mx ex], y as [sy|sy| |sy my ey]; simpl;
    try tauto.
  intros [Hdx Hex] [Hdy Hey] Hlo Hhi.
  apply binary_round_aux_within; try lia.
  destruct (digits2_pos_bounds mx) as [_ Hx].
  destruct (digits2_pos_bounds my) as [_ Hy].
  assert (Zdigits2 (Zpos (mx * my))
          <= Zpos (digits2_pos mx) + Zpos (digits2_pos my)).
  { apply Zdigits2_le; try lia.
    rewrite Z.pow_add_r, Pos2Z.inj_mul by lia. nia. }
  lia.
Qed.

Lemma SFdiv_core_binary_bounds (m1 : positive) (e1 : Z) (m2 : positive)
  (e2 : Z) :
  let qel := SFdiv_core_binary prec emax (Zpos m1) e1 (Zpos m2) e2 in
  0 <= fst (fst qel)
  /\ snd (fst qel) <= e1 - e2
  /\ Zdigits2 (fst (fst qel)) + snd (fst qel)
     <= Zpos (digits2_pos m1) + e1 - e2.
Proof.
  intros qel. split; [apply SFdiv_core_binary_nonneg|].
  subst qel. unfold SFdiv_core_binary.
  set (e' := Z.min _ (e1 - e2)).
  set (s := e1 - e2 - e').
  set (m' := match s with Z0 => _ | Zpos _ => _ | Zneg _ => _ end).
  assert (Hs : 0 <= s) by (subst s e'; lia).
  assert (Hm : 0 <= m' < 2 ^ (Zpos (digits2_pos m1) + s)).
  { destruct (digits2_pos_bounds m1) as [_ Hd].
    subst m'. destruct s as [|p|p] eqn:Es; try lia.
    - rewrite Z.add_0_r. lia.
    - rewrite Z.shiftl_mul_pow2, Z.pow_add_r by lia.
      assert (0 < 2 ^ Zpos p) by (apply Z.pow_pos_nonneg; lia). nia. }
  pose proof (Z_div_mod m' (Zpos m2) eq_refl) as D.
  destruct (Z.div_eucl m' (Zpos m2)) as [q r]. simpl.
  destruct D as [D1 D2]. split; [subst e'; lia|].
  assert (Hq : 0 <= q <= m') by nia.
  assert (Zdigits2 q <= Zpos (digits2_pos m1) + s)
    by (apply Zdigits2_le; lia).
  subst s. lia.
Qed.

Lemma div_within (x : number) (sy : bool) (my : positive) (ey Bx : Z) :
  magnitude_within Bx x ->
  -1074 <= Bx - ey -> Bx - ey <= 971 ->
  magnitude_within (Bx - ey + 1) (div x (S754_finite sy my ey)).
Proof.
  destruct x as [sx|sx| |sx mx ex]; simpl; try tauto.
  intros [Hdx Hex] Hlo Hhi.
  pose proof (SFdiv_core_binary_bounds mx ex my ey) as (Hq & He & Hd).
  destruct (SFdiv_core_binary _ _ _ _ _ _) as [[q e] l]. simpl in Hq, He, Hd.
  apply binary_round_aux_within; lia.
Qed.

Lemma binary64_digits (s : bool) (m : positive) (e : Z) :
  is_binary64 (S754_finite s m e) = true -> Zpos (digits2_pos m) <= 53.
Proof.
  unfold is_binary64, valid_binary, bounded, canonical_mantissa, fexp,
    SpecFloat.emin, prec, emax.
  intros Hv. apply andb_true_iff in Hv. destruct Hv as [Hc _].
  apply Z.eqb_eq in Hc. lia.
Qed.

(** A binary64 value of magnitude at most a positive finite [K] is
    below 2 to the power 53 plus the exponent of [K]. *)
Lemma within_of_le (x : number) (mK : positive) (eK : Z) :
  is_binary64 x = true ->
  le (Math_abs x) (S754_finite false mK eK) = true ->
  magnitude_within (53 + eK) x.
Proof.
  destruct x as [sx|sx| |sx mx ex]; simpl; try discriminate; try tauto.
  intros Hv Hle. apply (binary64_digits sx) in Hv.
  unfold le, SFleb in Hle. simpl in Hle.
  destruct (ex ?= eK) eqn:E; try discriminate.
  - apply Z.compare_eq in E. lia.
  - rewrite Z.compare_lt_iff in E. lia.
Qed.

End Magnitude.

Section Signs.

Lemma neg_involutive (x : number) : neg (neg x) = x.
Proof. destruct x; simpl; now rewrite ?negb_involutive. Qed.

Lemma binary_round_aux_neg (s : bool) (m e : Z) (l : location) :
  binary_round_aux prec emax (negb s) m e l
  = neg (binary_round_aux prec emax s m e l).
Proof.
  unfold binary_round_aux.
  destruct (shr_fexp prec emax m e l) as [r1 e1].
  destruct (shr_fexp prec emax _ e1 loc_Exact) as [r2 e2].
  destruct (shr_m r2); try reflexivity.
  now destruct (e2 <=? emax - prec).
Qed.

Lemma mul_neg_l (x y : number) : mul (neg x) y = neg (mul x y).
Proof.
  destruct x as [sx|sx| |sx mx ex], y as [sy|sy| |sy my ey]; simpl;
    rewrite <- ?negb_xorb_l; try reflexivity.
  apply binary_round_aux_neg.
Qed.

Lemma mul_comm (x y : number) : mul x y = mul y x.
Proof.
  destruct x as [sx|sx| |sx mx ex], y as [sy|sy| |sy my ey]; simpl;
    rewrite ?(xorb_comm sx sy); try reflexivity.
  now rewrite Pos.mul_comm, Z.add_comm.
Qed.

Lemma mul_neg_r (x y : number) : mul x (neg y) = neg (mul x y).
Proof. now rewrite mul_comm, mul_neg_l, mul_comm. Qed.

Lemma mul_neg_neg (x y : number) : mul (neg x) (neg y) = mul x y.
Proof. now rewrite mul_neg_l, mul_neg_r, neg_involutive. Qed.

Lemma div_neg_l (x y : number) : div (neg x) y = neg (div x y).
Proof.
  destruct x as [sx|sx| |sx mx ex], y as [sy|sy| |sy my ey]; simpl;
    rewrite <- ?negb_xorb_l; try reflexivity.
  destruct (SFdiv_core_binary _ _ _ _ _ _) as [[q e] l].
  apply binary_round_aux_neg.
Qed.

Lemma binary_normalize_opp (z e : Z) :
  z <> 0 ->
  binary_normalize prec emax (- z) e false
  = neg (binary_normalize prec emax z e false).
Proof.
  destruct z as [|p|p]; intros Hz; try congruence; simpl;
    unfold binary_round; destruct (shl_align _ _ _) as [mz ez].
  - apply (binary_round_aux_neg false).
  - apply (binary_round_aux_neg true).
Qed.

(** Swapping the operands of a subtraction negates the difference,
    except that a difference of equal numbers is [+0] both ways. *)
Lemma sub_swap (x y : number) :
  sub y x = neg (sub x y) \/ (sub y x = zero /\ sub x y = zero).
Proof.
  destruct x as [sx|sx| |sx mx ex], y as [sy|sy| |sy my ey]; simpl;
    try (left; reflexivity);
    try (destruct sx, sy; simpl; auto; fail).
  rewrite (Z.min_comm ey ex).
  set (a := cond_Zopp sx _). set (b := cond_Zopp sy _).
  destruct (Z.eq_dec (a - b) 0) as [E|E].
  - right. replace (b - a) with 0 by lia. rewrite E. split; reflexivity.
  - left. replace (b - a) with (- (a - b)) by lia.
    now apply binary_normalize_opp.
Qed.

Lemma sub_self (x : number) : is_finite x = true -> sub x x = zero.
Proof.
  destruct x as [[]|sx| |sx mx ex]; simpl; try discriminate;
    try reflexivity.
  intros _. now rewrite Z.sub_diag.
Qed.

End Signs.

(** * The haversine distance *)

Section DistanceFacts.
Context `{MathLibFacts}.

(** The sine term of a difference does not see the order of the
    operands. *)
Lemma half_sine_swap (x y : number) :
  exists s,
    Math_sin (div (div (mul (sub y x) Math_PI) (of_Z 180)) (of_Z 2)) = s
    /\ (Math_sin (div (div (mul (sub x y) Math_PI) (of_Z 180)) (of_Z 2)) = s
        \/ Math_sin (div (div (mul (sub x y) Math_PI) (of_Z 180)) (of_Z 2))
           = neg s).
Proof.
  eexists. split; [reflexivity|].
  destruct (sub_swap y x) as [E|[E1 E2]].
  - right. now rewrite E, mul_neg_l, !div_neg_l, sin_odd.
  - left. now rewrite E1, E2.
Qed.

Lemma calculateDistance_symmetric (lat1 lon1 lat2 lon2 : number) :
  calculateDistance lat1 lon1 lat2 lon2
  = calculateDistance lat2 lon2 lat1 lon1.
Proof.
  unfold calculateDistance.
  destruct (half_sine_swap lat1 lat2) as (s & -> & Hs).
  destruct (half_sine_swap lon1 lon2) as (t & -> & Ht).
  rewrite (mul_comm (Math_cos (div (mul lat2 Math_PI) (of_Z 180)))).
  destruct Hs as [-> | ->], Ht as [-> | ->];
    rewrite ?mul_neg_neg, ?mul_neg_r, ?mul_neg_l, ?neg_involutive;
    reflexivity.
Qed.

Lemma toRadians_finite (lat : number) :
  is_binary64 lat = true -> le (Math_abs lat) (of_Z 90) = true ->
  is_finite (toRadians lat) = true.
Proof.
  intros Hv Hle.
  change (of_Z 90) with (S754_finite false 6333186975989760 (-46)) in Hle.
  pose proof (within_of_le lat _ _ Hv Hle) as Hw.
  assert (Hpi : magnitude_within 2 Math_PI) by (simpl; lia).
  pose proof (mul_within lat Math_PI _ _ Hw Hpi) as Hm.
  unfold toRadians.
  change (of_Z 180) with (S754_finite false 6333186975989760 (-45)).
  eapply magnitude_within_finite, div_within; [apply Hm| |]; lia.
Qed.

Lemma finite_of_le (x : number) (mK : positive) (eK : Z) :
  le (Math_abs x) (S754_finite false mK eK) = true -> is_finite x = true.
Proof. now destruct x as [| [] | |]. Qed.

Lemma cos_product_vanishes (x : number) :
  is_finite x = true ->
  add zero (mul (mul (mul (Math_cos x) (Math_cos x)) zero) zero) = zero.
Proof.
  intros Hx. destruct (cos_unit x Hx) as [Hv Hle].
  change one with (S754_finite false 4503599627370496 (-52)) in Hle.
  pose proof (within_of_le _ _ _ Hv Hle) as Hw.
  pose proof (mul_within _ _ _ _ Hw Hw) as Hp.
  assert (Hf : is_finite (mul (Math_cos x) (Math_cos x)) = true)
    by (eapply magnitude_within_finite, Hp; lia).
  destruct (mul (Math_cos x) (Math_cos x)) as [[]|[]| |[] m e];
    try discriminate; reflexivity.
Qed.

Lemma calculateDistance_self (lat lon : number) :
  isCoordinate lat lon = true -> calculateDistance lat lon lat lon = zero.
Proof.
  unfold isCoordinate. rewrite !andb_true_iff.
  intros [[[Hvlat Hvlon] Hlat] Hlon].
  change (of_Z 180) with (S754_finite false 6333186975989760 (-45)) in Hlon.
  change (of_Z 90) with (S754_finite false 6333186975989760 (-46)) in Hlat.
  pose proof (toRadians_finite lat Hvlat Hlat) as Hrad.
  unfold calculateDistance.
  rewrite (sub_self lat) by (eapply finite_of_le, Hlat).
  rewrite (sub_self lon) by (eapply finite_of_le, Hlon).
  change (div (div (mul zero Math_PI) (of_Z 180)) (of_Z 2)) with zero.
  rewrite sin_zero.
  change (mul zero zero) with zero.
  change (div (mul lat Math_PI) (of_Z 180)) with (toRadians lat).
  rewrite (cos_product_vanishes _ Hrad).
  change (Math_sqrt zero) with zero.
  change (Math_sqrt (sub one zero)) with one.
  rewrite atan2_zero_one. reflexivity.
Qed.

(** C9. With a [Math] library that meets [MathLibFacts], the distance
    from a coordinate pair (latitude within 90 degrees, longitude
    within 180 degrees) to itself is [+0], and the distance between two
    points does not depend on their order, whatever the four numbers
    are. *)
Theorem calculateDistance_zero_symmetric :
  (forall lat lon,
     isCoordinate lat lon = true -> calculateDistance lat lon lat lon = zero)
  /\ (forall lat1 lon1 lat2 lon2,
        calculateDistance lat1 lon1 lat2 lon2
        = calculateDistance lat2 lon2 lat1 lon1).
Proof.
  split.
  - apply calculateDistance_self.
  - apply calculateDistance_symmetric.
Qed.

End DistanceFacts.

(** * The classifier service *)

Section ClassifierFacts.
Context `{MathLib}.

Lemma calculateMovingAverage_spec (values : list number) :
  calculateMovingAverage values = spec_mean values.
Proof. destruct values; reflexivity. Qed.

Lemma effective_spec (history : list number) (raw : number) :
  (if gt (calculateMovingAverage history) zero
   then calculateMovingAverage history else raw)
  = spec_effective history raw.
Proof.
  rewrite calculateMovingAverage_spec. destruct history; reflexivity.
Qed.

Lemma calculateVariance_spec (values : list number) :
  calculateVariance values = spec_variance values.
Proof.
  destruct values as [|v values]; [reflexivity|].
  unfold calculateVariance, spec_variance.
  now rewrite !calculateMovingAverage_spec.
Qed.

Lemma nth_last_index {A} (l : list A) (d : A) :
  nth (length l - 1) l d = List.last l d.
Proof.
  induction l as [|a [|b l] IH]; try reflexivity.
  change (List.last (a :: b :: l) d) with (List.last (b :: l) d).
  rewrite <- IH. simpl. now rewrite Nat.sub_0_r.
Qed.

(** The three read-only operations return the object they were called
    on. *)
Lemma getAverages_frame this : after getAverages this = this.
Proof. reflexivity. Qed.

Lemma getConfig_frame this : after getConfig this = this.
Proof. reflexivity. Qed.

Lemma getActivity_frame speed acceleration this :
  after (getActivity speed acceleration) this = this.
Proof.
  unfold after, getActivity, getAverages, bind, this_speedHistory,
    this_accelerationHistory, this_config, ret; simpl.
  repeat match goal with |- context [if ?b then _ else _] => destruct b end;
    reflexivity.
Qed.

Lemma getConfidence_frame speed acceleration activity this :
  after (getConfidence speed acceleration activity) this = this.
Proof. reflexivity. Qed.

Lemma detectStep_frame acceleration this :
  after (detectStep acceleration) this = this.
Proof.
  unfold after, detectStep, bind, this_accelerationHistory, this_config, ret;
    simpl.
  now destruct (length (accelerationHistory this) <? 2)%nat.
Qed.

Lemma updateHistory_frame history newValue this :
  after (updateHistory history newValue) this = this.
Proof.
  unfold after, updateHistory, bind, this_config, ret; simpl.
  now destruct (gt _ _).
Qed.

Lemma ask_frame q this : after (ask q) this = this.
Proof.
  destruct q; unfold after, ask, bind, ret; simpl.
  - pose proof (getActivity_frame speed acceleration this) as E.
    unfold after in E. destruct (getActivity _ _ this); simpl in *.
    congruence.
  - reflexivity.
  - pose proof (detectStep_frame acceleration this) as E.
    unfold after in E. destruct (detectStep _ this); simpl in *.
    congruence.
Qed.

Lemma askAll_run qs this :
  askAll qs this = (map (fun q => result (ask q) this) qs, this).
Proof.
  induction qs as [|q qs IH]; [reflexivity|].
  simpl. unfold bind.
  pose proof (ask_frame q this) as E. unfold after in E.
  unfold result at 1.
  destruct (ask q this) as [a this']; simpl in *. subst this'.
  now rewrite IH.
Qed.

(** C1. [getActivity] returns the state of the ordered first-match
    decision on the effective speed and acceleration (the history mean
    when it is positive, the raw value otherwise), for every
    configuration, every pair of histories and every raw input; it is
    never [UNKNOWN]. *)
Theorem getActivity_decision (this : ActivityClassifierService)
  (speed acceleration : number) :
  result (getActivity speed acceleration) this
  = spec_classify (config this)
      (spec_effective (speedHistory this) speed)
      (spec_effective (accelerationHistory this) acceleration)
  /\ result (getActivity speed acceleration) this <> UNKNOWN.
Proof.
  assert (E : result (getActivity speed acceleration) this
              = spec_classify (config this)
                  (spec_effective (speedHistory this) speed)
                  (spec_effective (accelerationHistory this) acceleration)).
  { unfold result, getActivity, getAverages, bind, this_speedHistory,
      this_accelerationHistory, this_config, ret; simpl.
    rewrite !effective_spec. unfold spec_classify.
    repeat match goal with |- context [if ?b then _ else _] => destruct b end;
      reflexivity. }
  split; [exact E|].
  rewrite E. unfold spec_classify.
  repeat match goal with |- context [if ?b then _ else _] => destruct b end;
    discriminate.
Qed.

(** C7. [detectStep m] is false when the acceleration history holds
    fewer than two samples; otherwise it is true exactly when [m] is
    above the most recent sample plus [stepDetectionThreshold] and
    above [walkingAccelerationThreshold]. *)
Theorem detectStep_rule (this : ActivityClassifierService) (m : number) :
  result (detectStep m) this
  = spec_detectStep (config this) (accelerationHistory this) m
  /\ ((length (accelerationHistory this) < 2)%nat ->
      result (detectStep m) this = false)
  /\ ((2 <= length (accelerationHistory this))%nat ->
      (result (detectStep m) this = true <->
       gt m (add (List.last (accelerationHistory this) NaN)
                 (stepDetectionThreshold (config this))) = true
       /\ gt m (walkingAccelerationThreshold (config this)) = true)).
Proof.
  assert (E : result (detectStep m) this
              = spec_detectStep (config this) (accelerationHistory this) m).
  { unfold result, detectStep, spec_detectStep, bind,
      this_accelerationHistory, this_config, ret; simpl.
    destruct (length (accelerationHistory this) <? 2)%nat; [reflexivity|].
    simpl. now rewrite nth_last_index. }
  split; [exact E|]. rewrite E. unfold spec_detectStep.
  split; intros Hlen.
  - apply Nat.ltb_lt in Hlen. now rewrite Hlen.
  - assert (Hn : (length (accelerationHistory this) <? 2)%nat = false)
      by (apply Nat.ltb_ge; lia).
    rewrite Hn. apply andb_true_iff.
Qed.

(** C10. The read-only operations [getActivity], [getConfidence] and
    [detectStep] leave the configuration and both histories as they
    were, so any sequence of such calls returns what each call returns
    on the unchanged object; [getConfig], [getAverages] and
    [updateHistory] (which returns a new array) do not write either. *)
Theorem read_only_frame (this : ActivityClassifierService) :
  (forall speed acceleration,
     after (getActivity speed acceleration) this = this)
  /\ (forall speed acceleration activity,
        after (getConfidence speed acceleration activity) this = this)
  /\ (forall acceleration, after (detectStep acceleration) this = this)
  /\ (forall qs,
        after (askAll qs) this = this
        /\ result (askAll qs) this = map (fun q => result (ask q) this) qs)
  /\ after getConfig this = this
  /\ after getAverages this = this
  /\ (forall history newValue,
        after (updateHistory history newValue) this = this).
Proof.
  repeat split.
  - intros. apply getActivity_frame.
  - intros. apply detectStep_frame.
  - unfold after. now rewrite askAll_run.
  - unfold result. now rewrite askAll_run.
  - intros. apply updateHistory_frame.
Qed.

End ClassifierFacts.

(** * Confidence and the history buffers *)

Section ConfidenceFacts.
Context `{MathLib}.

Lemma add_nan_r (x : number) : add x NaN = NaN.
Proof. now destruct x. Qed.

(** Adding a number to a finite number gives a number. *)
Lemma add_finite_not_nan (x y : number) :
  is_finite x = true -> is_nan y = false -> is_nan (add x y) = false.
Proof.
  destruct x as [sx|sx| |sx mx ex], y as [sy|sy| |sy my ey]; simpl;
    try discriminate; intros _ _; try reflexivity.
  - now destruct sx, sy.
  - apply binary_normalize_not_nan.
Qed.

Lemma plus_if_nan (condition : bool) (bonus : number) :
  plus_if condition bonus NaN = NaN.
Proof. now destruct condition. Qed.

Lemma plus_if_not_nan (condition : bool) (bonus total : number) :
  is_finite bonus = true -> is_nan total = false ->
  is_nan (plus_if condition bonus total) = false.
Proof.
  intros Hb Ht. destruct condition; simpl; auto using add_not_nan.
Qed.

Lemma spec_bonus_finite (activity : ActivityType) :
  is_finite (spec_bonus activity) = true.
Proof. now destruct activity. Qed.

Lemma getConfidence_spec (this : ActivityClassifierService)
  (speed acceleration : number) (activity : ActivityType) :
  result (getConfidence speed acceleration activity) this
  = spec_confidence (config this) (speedHistory this) speed acceleration
      activity.
Proof.
  unfold result, getConfidence, getAverages, bind, this_speedHistory,
    this_accelerationHistory, this_config, ret, spec_confidence, clamp,
    plus_if, fst.
  rewrite calculateVariance_spec.
  f_equal. f_equal.
  destruct (ge (of_nat (length (speedHistory this))) _);
    destruct (lt (spec_variance (speedHistory this)) _);
    destruct activity; simpl;
    repeat match goal with |- context [if ?b then _ else _] => destruct b end;
    reflexivity.
Qed.

(** The sum under the clamp is a number exactly when the ratio of the
    history length to the window is. *)
Lemma spec_confidence_between (cfg : ClassifierConfig)
  (history : list number) (speed acceleration : number)
  (activity : ActivityType) :
  between zero one (spec_confidence cfg history speed acceleration activity)
  <-> is_nan (div (of_nat (length history)) (movingAverageWindow cfg))
      = false.
Proof.
  unfold spec_confidence.
  set (ratio := div (of_nat (length history)) (movingAverageWindow cfg)).
  split.
  - intros Hb. destruct ratio eqn:E; try reflexivity.
    apply between_not_nan in Hb.
    rewrite Math_min_nan_l in Hb. simpl mul in Hb.
    rewrite add_nan_r, !plus_if_nan, clamp_nan in Hb. discriminate.
  - intros Hr. apply clamp_between.
    apply plus_if_not_nan; [reflexivity|].
    apply plus_if_not_nan; [apply spec_bonus_finite|].
    apply add_finite_not_nan; [reflexivity|].
    assert (Hm : is_nan (Math_min ratio one) = false)
      by (apply Math_min_not_nan; [exact Hr|reflexivity]).
    change (dec 2 10) with (S754_finite false 7205759403792794 (-55)).
    now apply mul_not_nan.
Qed.

Lemma ratio_not_nan (n : nat) (w : number) :
  is_finite_nonzero w = true -> is_nan (div (of_nat n) w) = false.
Proof.
  destruct w as [| | |s m e]; try discriminate. intros _.
  apply div_not_nan, of_nat_not_nan.
Qed.

(** Where the clamp of [getConfidence] works.  For every state, raw
    input and chosen activity [getConfidence] computes
    [min(max(0.5 + min(length/window, 1) * 0.2 + consistency bonus +
    stability bonus, 0), 1)]; the value lies in the closed interval
    from 0 to 1 exactly when [length/window] is not NaN, which is the
    case for every window that is finite and not zero. *)
Theorem getConfidence_clamped (this : ActivityClassifierService)
  (speed acceleration : number) (activity : ActivityType) :
  result (getConfidence speed acceleration activity) this
  = spec_confidence (config this) (speedHistory this) speed acceleration
      activity
  /\ (between zero one
        (result (getConfidence speed acceleration activity) this)
      <-> is_nan (div (of_nat (length (speedHistory this)))
                    (movingAverageWindow (config this))) = false)
  /\ (is_finite_nonzero (movingAverageWindow (config this)) = true ->
      between zero one
        (result (getConfidence speed acceleration activity) this)).
Proof.
  rewrite getConfidence_spec. split; [reflexivity|]. split.
  - apply spec_confidence_between.
  - intros Hw. apply spec_confidence_between. now apply ratio_not_nan.
Qed.

End ConfidenceFacts.

Section HistoryFacts.

Lemma updateHistory_result (this : ActivityClassifierService)
  (history : list number) (newValue : number) :
  result (updateHistory history newValue) this
  = if gt (of_nat (length (history ++ [newValue])))
          (movingAverageWindow (config this))
    then tail (history ++ [newValue]) else history ++ [newValue].
Proof.
  unfold result, updateHistory, bind, this_config, ret. simpl.
  now destruct (gt _ _).
Qed.

Lemma length_tail_snoc {A} (l : list A) (a : A) :
  length (tail (l ++ [a])) = length l.
Proof. destruct l; simpl; [reflexivity|]. rewrite length_app. simpl. lia. Qed.

(** One push keeps the buffer within the window. *)
Lemma updateHistory_window (this : ActivityClassifierService)
  (history : list number) (newValue : number) :
  stated_window this history ->
  stated_window this (result (updateHistory history newValue) this).
Proof.
  unfold stated_window. intros Hh. rewrite updateHistory_result.
  destruct (gt _ _) eqn:E.
  - now rewrite length_tail_snoc.
  - apply not_lt_le; [|apply of_nat_not_nan|exact E].
    now apply le_not_nan in Hh.
Qed.

Lemma pushAll_snoc (this : ActivityClassifierService)
  (values : list number) (v : number) (history : list number) :
  pushAll this (values ++ [v]) history
  = result (updateHistory (pushAll this values history) v) this.
Proof. unfold pushAll. now rewrite fold_left_app. Qed.

Lemma pushAll_window (this : ActivityClassifierService)
  (values history : list number) :
  stated_window this history ->
  stated_window this (pushAll this values history).
Proof.
  intros Hh. induction values as [|v values IH] using rev_ind; [exact Hh|].
  rewrite pushAll_snoc. now apply updateHistory_window.
Qed.

(** The buffer is what remains of the pushed values after dropping
    some of the oldest. *)
Lemma pushAll_suffix (this : ActivityClassifierService)
  (values history : list number) :
  exists dropped,
    history ++ values = dropped ++ pushAll this values history.
Proof.
  induction values as [|v values IH] using rev_ind.
  - exists []. simpl. now rewrite app_nil_r.
  - destruct IH as [dropped IH]. rewrite pushAll_snoc, updateHistory_result.
    destruct (gt _ _).
    + destruct (pushAll this values history) as [|oldest rest] eqn:E.
      * exists (dropped ++ [v]). simpl.
        rewrite app_assoc, IH. now rewrite !app_nil_r.
      * exists (dropped ++ [oldest]). simpl.
        rewrite app_assoc, IH. now rewrite <- !app_assoc.
    + exists dropped. now rewrite app_assoc, IH, <- app_assoc.
Qed.

Lemma pushAll_config (this this' : ActivityClassifierService)
  (values history : list number) :
  config this = config this' ->
  pushAll this values history = pushAll this' values history.
Proof.
  intros Hc. revert history.
  induction values as [|v values IH]; intros; [reflexivity|].
  simpl. rewrite !updateHistory_result, Hc. apply IH.
Qed.

Lemma updateHistories_run (this : ActivityClassifierService)
  (speed acceleration : number) :
  after (updateHistories speed acceleration) this
  = {| config := config this;
       speedHistory := result (updateHistory (speedHistory this) speed) this;
       accelerationHistory :=
         result (updateHistory (accelerationHistory this) acceleration)
           this |}.
Proof.
  unfold after, result, updateHistories, updateHistory, bind,
    this_speedHistory, this_accelerationHistory, this_config,
    set_speedHistory, set_accelerationHistory, ret. simpl.
  destruct (gt (of_nat (length (speedHistory this ++ [speed]))) _); simpl;
    destruct (gt (of_nat (length (accelerationHistory this
                                   ++ [acceleration]))) _);
    reflexivity.
Qed.

Lemma after_then {A B} (m : Method A) (k : Method B)
  (this : ActivityClassifierService) :
  after (m ;;; k) this = after k (after m this).
Proof. unfold after, bind. now destruct (m this). Qed.

(** Feeding samples pushes the speeds on one buffer and the magnitudes
    on the other, and leaves the configuration alone. *)
Lemma feed_run (samples : list (number * number))
  (this : ActivityClassifierService) :
  after (feed samples) this
  = {| config := config this;
       speedHistory := pushAll this (map fst samples) (speedHistory this);
       accelerationHistory :=
         pushAll this (map snd samples) (accelerationHistory this) |}.
Proof.
  revert this. induction samples as [|[speed acceleration] samples IH];
    intros this.
  - now destruct this.
  - simpl feed. rewrite after_then, IH, updateHistories_run. simpl.
    f_equal; apply pushAll_config; reflexivity.
Qed.

(** C6, as the code has it.  For every configuration whose window [w]
    is a number not below 0, after any sequence of pushes on an empty
    buffer the length is at most [w]; the buffer is what is left of
    the pushed values after the oldest were dropped, a push removing
    the front element exactly when the length would exceed [w]; and
    both channels of the service are such buffers. *)
Theorem history_within_window (this : ActivityClassifierService) :
  le zero (movingAverageWindow (config this)) = true ->
  (forall values : list number,
     stated_window this (pushAll this values [])
     /\ exists dropped, values = dropped ++ pushAll this values [])
  /\ (forall (history : list number) (v : number),
        result (updateHistory history v) this
        = if gt (of_nat (length history + 1))
                (movingAverageWindow (config this))
          then tail (history ++ [v]) else history ++ [v])
  /\ (forall samples : list (number * number),
        let this' := after (feed samples) (after reset this) in
        config this' = config this
        /\ stated_window this' (speedHistory this')
        /\ stated_window this' (accelerationHistory this')).
Proof.
  intros Hw. split; [|split].
  - intros values. split.
    + now apply pushAll_window.
    + apply (pushAll_suffix this values []).
  - intros. rewrite updateHistory_result, length_app. reflexivity.
  - intros samples this'. subst this'. rewrite feed_run.
    repeat split; apply (pushAll_window (after reset this) _ []); exact Hw.
Qed.

End HistoryFacts.

(** * Batch statistics *)

Section ControllerFacts.
Context `{MathLib}.

Lemma countSteps_frame rest steps this :
  after (countSteps rest steps) this = this.
Proof.
  revert steps. induction rest as [|entry rest IH]; intros; [reflexivity|].
  unfold after in *. simpl. unfold bind.
  pose proof (detectStep_frame (acc_magnitude (log_acceleration entry)) this)
    as E.
  unfold after in E.
  destruct (detectStep _ this) as [fired this']; simpl in *. subst this'.
  apply IH.
Qed.

(** What the non-empty branch computes, apart from the clock. *)
Lemma calculateSessionStats_run now entry logs id start this :
  calculateSessionStats now (entry :: logs) id start this
  = ({| sessionId := id; startTime := start; endTime := Some now;
        duration := sub now start;
        distance := consecutiveDistance (entry :: logs);
        steps := result (countSteps logs zero) this;
        calories :=
          add (mul (result (countSteps logs zero) this)
                 (caloriesPerStep (config this)))
              (mul (div (consecutiveDistance
                           (List.filter
                              (fun log =>
                                 bool_decide (log_activity log = RUNNING))
                              (entry :: logs)))
                        (of_Z 1000))
                 (caloriesPerKmRunning (config this)));
        averageSpeed :=
          (let speeds :=
             List.filter (fun s => gt s zero)
               (map log_speed (entry :: logs)) in
           if (0 <? length speeds)%nat
           then div (fold_left (fun sum s => add sum s) speeds zero)
                    (of_nat (length speeds))
           else zero);
        maxSpeed :=
          (let speeds :=
             List.filter (fun s => gt s zero)
               (map log_speed (entry :: logs)) in
           if (0 <? length speeds)%nat then maxOf speeds else zero);
        activities :=
          fold_left (fun acts log => countActivity acts (log_activity log))
            (entry :: logs) ∅ |},
     this).
Proof.
  unfold calculateSessionStats.
  change (length (entry :: logs) =? 0)%nat with false. cbv iota.
  change (tail (entry :: logs)) with logs.
  unfold bind at 1.
  pose proof (countSteps_frame logs zero this) as E.
  unfold after, result in *.
  destruct (countSteps logs zero this) as [n this']; simpl in E. subst this'.
  reflexivity.
Qed.

Lemma calculateSessionStats_frame now logs id start this :
  after (calculateSessionStats now logs id start) this = this.
Proof.
  destruct logs as [|entry logs]; [reflexivity|].
  unfold after. now rewrite calculateSessionStats_run.
Qed.

(** C8. On an empty log the recomputation returns, for every session id
    and start time, statistics that are zero in every numeric field,
    with no activity counted and [endTime] set to the clock reading. *)
Theorem calculateSessionStats_empty (this : ActivityClassifierService)
  (now : number) (id : string) (start : number) :
  result (calculateSessionStats now [] id start) this
  = {| sessionId := id; startTime := start; endTime := Some now;
       duration := zero; distance := zero; steps := zero;
       calories := zero; averageSpeed := zero; maxSpeed := zero;
       activities := ∅ |}
  /\ endTime (result (calculateSessionStats now [] id start) this) <> None
  /\ after (calculateSessionStats now [] id start) this = this.
Proof. repeat split. discriminate. Qed.

(** C4, as the code has it.  Two recomputations over the same log, the
    second run on the service the first one left, agree on the session
    id, the start time, distance, steps, calories, both speeds and the
    activity counts; [endTime] is the clock reading of each run and
    [duration] is derived from it, so the results are identical exactly
    when the two readings are. *)
Theorem calculateSessionStats_twice (this : ActivityClassifierService)
  (now1 now2 : number) (logs : list ActivityLog) (id : string)
  (start : number) :
  let first := calculateSessionStats now1 logs id start this in
  let second := calculateSessionStats now2 logs id start (snd first) in
  snd first = this /\ snd second = this
  /\ sessionId (fst first) = sessionId (fst second)
  /\ startTime (fst first) = startTime (fst second)
  /\ distance (fst first) = distance (fst second)
  /\ steps (fst first) = steps (fst second)
  /\ calories (fst first) = calories (fst second)
  /\ averageSpeed (fst first) = averageSpeed (fst second)
  /\ maxSpeed (fst first) = maxSpeed (fst second)
  /\ activities (fst first) = activities (fst second)
  /\ endTime (fst first) = Some now1 /\ endTime (fst second) = Some now2
  /\ (fst first = fst second <-> now1 = now2).
Proof.
  intros first second.
  assert (E1 : snd first = this)
    by apply (calculateSessionStats_frame now1 logs id start this).
  subst second. rewrite E1. subst first.
  destruct logs as [|entry logs].
  - repeat split; try now intros ->.
    intros E. apply (f_equal endTime) in E. simpl in E. congruence.
  - rewrite !calculateSessionStats_run. simpl.
    repeat split; try now intros ->.
    intros E. apply (f_equal endTime) in E. simpl in E. congruence.
Qed.

End ControllerFacts.

(** * The live hooks *)

Section HookFacts.
Context `{MathLib}.

Import HookActivityClassifier.

(** A processed sample: the listener stores the activity it classified
    and folds it into the statistics. *)
Lemma onAccelerometer_processed (loc : LocationData) (tick : Tick)
  (x y z : number) (st : State) :
  hasFix (Some loc) = true ->
  let st' := onAccelerometer (Some loc) tick x y z st in
  currentActivity st' = classified loc x y z st
  /\ sessionStats st'
     = foldSample (statsTime tick) (classified loc x y z st)
         (sessionStats st).
Proof.
  intros Hfix. unfold onAccelerometer. rewrite Hfix.
  unfold classified, result, after.
  change ((updateHistories (default zero (loc_speed loc))
             (calculateMagnitude x y z) ;;;
           getActivity (default zero (loc_speed loc))
             (calculateMagnitude x y z)) (classifier st))
    with (let (_, c1) :=
            updateHistories (default zero (loc_speed loc))
              (calculateMagnitude x y z) (classifier st) in
          getActivity (default zero (loc_speed loc))
            (calculateMagnitude x y z) c1).
  destruct (updateHistories _ _ (classifier st)) as [[] c1]. simpl.
  destruct (getActivity _ _ c1) as [activity c2]. simpl.
  split; reflexivity.
Qed.

(** A sample that arrives while the listener has no fix changes the
    stored acceleration only. *)
Lemma onAccelerometer_skipped (location : option LocationData) (tick : Tick)
  (x y z : number) (st : State) :
  hasFix location = false ->
  sessionStats (onAccelerometer location tick x y z st) = sessionStats st.
Proof.
  intros Hfix. unfold onAccelerometer.
  destruct location as [loc|]; [|reflexivity]. now rewrite Hfix.
Qed.

Lemma onLocation_steps_calories (now : number) (gps : LocationData)
  (st : State) :
  steps (sessionStats (onLocation now gps st)) = steps (sessionStats st)
  /\ calories (sessionStats (onLocation now gps st))
     = calories (sessionStats st).
Proof.
  unfold onLocation. destruct (lastLocationRef st); split; reflexivity.
Qed.

(** C2, as the code has it.  For every accelerometer sample the tracker
    hook processes, the step count grows by exactly 1 if and only if
    the classified activity is Walking or Running, whether or not the
    Step Detector fires, and is unchanged otherwise; a location update
    never changes it. *)
Theorem live_steps (loc : LocationData) (tick : Tick) (x y z : number)
  (st : State) :
  hasFix (Some loc) = true ->
  steps (sessionStats (onAccelerometer (Some loc) tick x y z st))
  = (if isWalkingOrRunning (classified loc x y z st)
     then add (steps (sessionStats st)) one
     else steps (sessionStats st))
  /\ (forall now gps,
        steps (sessionStats (onLocation now gps st))
        = steps (sessionStats st)).
Proof.
  intros Hfix. split.
  - destruct (onAccelerometer_processed loc tick x y z st Hfix) as [_ ->].
    reflexivity.
  - intros. apply onLocation_steps_calories.
Qed.

(** C3, as the code has it.  For every accelerometer sample the tracker
    hook processes, calories grow by the constant 0.1 when the
    classified activity is Running, by the constant 0.05 when it is
    Walking, and are unchanged for Idle, Vehicle and Unknown; neither
    the Step Detector, the distance nor the configured calorie
    constants enter, and a location update never changes calories. *)
Theorem live_calories (loc : LocationData) (tick : Tick) (x y z : number)
  (st : State) :
  hasFix (Some loc) = true ->
  calories (sessionStats (onAccelerometer (Some loc) tick x y z st))
  = match classified loc x y z st with
    | RUNNING => add (calories (sessionStats st)) (dec 1 10)
    | WALKING => add (calories (sessionStats st)) (dec 5 100)
    | IDLE | VEHICLE | UNKNOWN => calories (sessionStats st)
    end
  /\ (forall now gps,
        calories (sessionStats (onLocation now gps st))
        = calories (sessionStats st)).
Proof.
  intros Hfix. split.
  - destruct (onAccelerometer_processed loc tick x y z st Hfix) as [_ ->].
    now destruct (classified loc x y z st).
  - intros. apply onLocation_steps_calories.
Qed.

End HookFacts.

Section SecondHookFacts.
Context `{MathLib}.

Import HookUseActivityClassifier.

(** The location handler of the second hook calls [updateHistory] with
    a number where the method spreads an array, so its [try] block
    ends there: every update of an active session only stores the
    location and the error text. *)
Lemma handleLocationUpdate_aborts (acceleration : AccelerometerData)
  (tick : Tick) (newLocation : LocationData) (st : State) :
  handleLocationUpdate true (Some acceleration) tick newLocation st
  = setError "Error procesando datos de ubicación"
      (setLocation (Some newLocation) st).
Proof. reflexivity. Qed.

Lemma handleLocationUpdate_statistics (isActive : bool)
  (acceleration : option AccelerometerData) (tick : Tick)
  (newLocation : LocationData) (st : State) :
  let st' := handleLocationUpdate isActive acceleration tick newLocation st in
  sessionStatsRef st' = sessionStatsRef st
  /\ stepCountRef st' = stepCountRef st
  /\ classifier st' = classifier st.
Proof. destruct isActive, acceleration; repeat split. Qed.

End SecondHookFacts.

(** * Concrete runs *)

Section Runs.

Import HookActivityClassifier.

Local Existing Instance firstOrderMath.

(** Slow and still, nothing in the histories: Idle, confidence 0.8. *)
Example scenario_idle :
  result (getActivity (dec 2 10) (dec 5 100)) new_ActivityClassifierService
  = IDLE
  /\ result (getConfidence (dec 2 10) (dec 5 100) IDLE)
       new_ActivityClassifierService = dec 8 10.
Proof. split; reflexivity. Qed.

(** 6 m/s at 0.7 g after five such samples: Running, confidence 1. *)
Example scenario_running :
  result (getActivity (of_Z 6) (dec 7 10)) warmService = RUNNING
  /\ result (getConfidence (of_Z 6) (dec 7 10) RUNNING) warmService = one.
Proof. split; vm_compute; reflexivity. Qed.

(** The first sample of a session, 1 g at 1 m/s: the listener counts a
    step although the Step Detector does not fire, whether it is asked
    after the sample is pushed (one sample in the history) or before
    (none). *)
Lemma live_steps_counterexample :
  hasFix (Some exampleFix) = true
  /\ ~ stated_steps
         (stepFired exampleFix one zero zero exampleTracker)
         (classified exampleFix one zero zero exampleTracker)
         (steps (sessionStats exampleTracker))
         (steps (sessionStats
                   (onAccelerometer (Some exampleFix) exampleTick
                      one zero zero exampleTracker)))
  /\ ~ stated_steps
         (result (detectStep (calculateMagnitude one zero zero))
            (classifier exampleTracker))
         (classified exampleFix one zero zero exampleTracker)
         (steps (sessionStats exampleTracker))
         (steps (sessionStats
                   (onAccelerometer (Some exampleFix) exampleTick
                      one zero zero exampleTracker))).
Proof.
  unfold stated_steps. repeat split; vm_compute; discriminate.
Qed.

Lemma live_steps_witness :
  hasFix (Some exampleFix) = true
  /\ steps (sessionStats
              (onAccelerometer (Some exampleFix) exampleTick one zero zero
                 exampleTracker))
     = (if isWalkingOrRunning
             (classified exampleFix one zero zero exampleTracker)
        then add (steps (sessionStats exampleTracker)) one
        else steps (sessionStats exampleTracker)).
Proof.
  split; [reflexivity|].
  exact (proj1 (live_steps exampleFix exampleTick one zero zero
                  exampleTracker eq_refl)).
Defined.

(** The same sample: calories grow by 0.05, which is neither nothing
    nor the configured 0.04 per step. *)
Lemma live_calories_counterexample :
  classified exampleFix one zero zero exampleTracker = WALKING
  /\ ~ stated_calories (config (classifier exampleTracker)) true
         (classified exampleFix one zero zero exampleTracker) zero
         (calories (sessionStats exampleTracker))
         (calories (sessionStats
                      (onAccelerometer (Some exampleFix) exampleTick
                         one zero zero exampleTracker)))
  /\ ~ stated_calories (config (classifier exampleTracker)) false
         (classified exampleFix one zero zero exampleTracker) zero
         (calories (sessionStats exampleTracker))
         (calories (sessionStats
                      (onAccelerometer (Some exampleFix) exampleTick
                         one zero zero exampleTracker))).
Proof.
  unfold stated_calories. repeat split; vm_compute; discriminate.
Qed.

Lemma live_calories_witness :
  hasFix (Some exampleFix) = true
  /\ calories (sessionStats
                 (onAccelerometer (Some exampleFix) exampleTick one zero zero
                    exampleTracker))
     = match classified exampleFix one zero zero exampleTracker with
       | RUNNING => add (calories (sessionStats exampleTracker)) (dec 1 10)
       | WALKING => add (calories (sessionStats exampleTracker)) (dec 5 100)
       | IDLE | VEHICLE | UNKNOWN => calories (sessionStats exampleTracker)
       end.
Proof.
  split; [reflexivity|].
  exact (proj1 (live_calories exampleFix exampleTick one zero zero
                  exampleTracker eq_refl)).
Defined.

(** Recomputing a one-entry log at clock readings 1000 and 2000. *)
Lemma calculateSessionStats_counterexample :
  result (calculateSessionStats (of_Z 1000) [exampleLog] "session_1" zero)
    new_ActivityClassifierService
  <> result (calculateSessionStats (of_Z 2000) [exampleLog] "session_1" zero)
       (after
          (calculateSessionStats (of_Z 1000) [exampleLog] "session_1" zero)
          new_ActivityClassifierService).
Proof.
  intros E. apply (f_equal endTime) in E. vm_compute in E. discriminate.
Qed.

Lemma calculateSessionStats_twice_witness :
  result (calculateSessionStats (of_Z 1000) [exampleLog] "session_1" zero)
    new_ActivityClassifierService
  = result (calculateSessionStats (of_Z 1000) [exampleLog] "session_1" zero)
      (after
         (calculateSessionStats (of_Z 1000) [exampleLog] "session_1" zero)
         new_ActivityClassifierService).
Proof.
  pose proof (calculateSessionStats_twice new_ActivityClassifierService
                (of_Z 1000) (of_Z 1000) [exampleLog] "session_1" zero) as T.
  cbv zeta in T.
  exact (proj2 (proj2 (proj2 (proj2 (proj2 (proj2 (proj2 (proj2 (proj2
           (proj2 (proj2 (proj2 (proj2 T)))))))))))) eq_refl).
Defined.

(** C5 at the input where the code misses it.  On a new service whose
    window has been set to 0 with [setConfig], before any sample is
    pushed, [getConfidence(0, 0, IDLE)] is NaN: the history ratio is
    0/0, [Math.min] and [Math.max] pass NaN on, and the value returned
    by the line commented "Clamp entre 0 y 1" is not between 0 and 1.
    The window 0 is otherwise served: every push then leaves the
    history empty. *)
Theorem getConfidence_window_zero :
  movingAverageWindow (config (serviceWithWindow zero)) = zero
  /\ speedHistory (serviceWithWindow zero) = []
  /\ div (of_nat (length (speedHistory (serviceWithWindow zero))))
       (movingAverageWindow (config (serviceWithWindow zero))) = NaN
  /\ result (getConfidence zero zero IDLE) (serviceWithWindow zero) = NaN
  /\ ~ between zero one
         (result (getConfidence zero zero IDLE) (serviceWithWindow zero))
  /\ speedHistory
       (after (updateHistories one one) (serviceWithWindow zero)) = [].
Proof.
  repeat split; try reflexivity.
  unfold between. vm_compute. intros [E _]. discriminate.
Qed.

Lemma getConfidence_clamped_witness :
  is_finite_nonzero (movingAverageWindow (config new_ActivityClassifierService))
  = true
  /\ between zero one
       (result (getConfidence zero zero IDLE) new_ActivityClassifierService).
Proof.
  split; [reflexivity|].
  exact (proj2 (proj2 (getConfidence_clamped new_ActivityClassifierService
                         zero zero IDLE)) eq_refl).
Defined.

(** With the window set to -1 a push leaves the buffer empty, and 0 is
    above -1. *)
Lemma history_window_counterexample :
  pushAll (serviceWithWindow (of_Z (-1))) [one] [] = []
  /\ ~ stated_window (serviceWithWindow (of_Z (-1)))
         (pushAll (serviceWithWindow (of_Z (-1))) [one] []).
Proof.
  split; [reflexivity|]. unfold stated_window. vm_compute. discriminate.
Qed.

Lemma history_within_window_witness :
  le zero (movingAverageWindow (config new_ActivityClassifierService)) = true
  /\ stated_window new_ActivityClassifierService
       (pushAll new_ActivityClassifierService
          [one; one; one; one; one; one; one] []).
Proof.
  split; [reflexivity|].
  exact (proj1 (proj1 (history_within_window new_ActivityClassifierService
                         eq_refl) [one; one; one; one; one; one; one])).
Defined.

Lemma detectStep_rule_witness :
  (2 <= length (accelerationHistory
                  (after (feed [(one, dec 1 10); (one, dec 1 10)])
                     new_ActivityClassifierService)))%nat
  /\ result (detectStep one)
       (after (feed [(one, dec 1 10); (one, dec 1 10)])
          new_ActivityClassifierService) = true.
Proof.
  split; [vm_compute; lia|].
  apply (proj2 (proj2 (detectStep_rule
                         (after (feed [(one, dec 1 10); (one, dec 1 10)])
                            new_ActivityClassifierService) one))).
  - vm_compute. lia.
  - split; reflexivity.
Defined.

(** The first-order functions meet the assumptions on the library. *)
Lemma firstOrderMath_facts : MathLibFacts.
Proof.
  constructor.
  - reflexivity.
  - reflexivity.
  - intros x Hx. simpl. rewrite Hx. split; reflexivity.
  - reflexivity.
Qed.

Lemma calculateDistance_zero_symmetric_witness :
  isCoordinate (of_Z 45) (of_Z 90) = true
  /\ calculateDistance (of_Z 45) (of_Z 90) (of_Z 45) (of_Z 90) = zero.
Proof.
  split; [reflexivity|].
  exact (proj1 (@calculateDistance_zero_symmetric firstOrderMath
                  firstOrderMath_facts) (of_Z 45) (of_Z 90) eq_refl).
Defined.

End Runs.

(** * Further properties of the classifier service *)

Section Order.

Lemma compare_refl (x : number) : is_nan x = false -> SFcompare x x = Some Eq.
Proof.
  destruct x as [s|[]| |[] m e]; simpl; try discriminate; intros _;
    try reflexivity;
    rewrite Z.compare_refl; change (PosDef.Pos.compare_cont Eq m m)
      with (Pos.compare m m); now rewrite Pos.compare_refl.
Qed.

Lemma le_refl (x : number) : is_nan x = false -> le x x = true.
Proof. intros Hx. unfold le, SFleb. now rewrite compare_refl. Qed.

Lemma le_trans (a b c : number) :
  le a b = true -> le b c = true -> le a c = true.
Proof.
  unfold le, SFleb.
  destruct a as [sa|[]| |[] ma ea], b as [sb|[]| |[] mb eb],
    c as [sc|[]| |[] mc ec]; simpl; try discriminate; try reflexivity;
    change PosDef.Pos.compare_cont with Pos.compare_cont;
    fold (Pos.compare ma mb); fold (Pos.compare mb mc);
    fold (Pos.compare ma mc);
    destruct (Z.compare_spec ea eb), (Z.compare_spec eb ec),
      (Z.compare_spec ea ec); try lia; try discriminate; try reflexivity;
    destruct (Pos.compare_spec ma mb), (Pos.compare_spec mb mc),
      (Pos.compare_spec ma mc); simpl; try lia; try discriminate;
    try reflexivity.
Qed.

Lemma gt_not_nan (a b : number) : gt a b = true -> is_nan a = false.
Proof. unfold gt, SFltb. destruct a, b; simpl; try discriminate; auto. Qed.

(** [Math.max] of two numbers is one of them and is below neither. *)
Lemma Math_max_upper (a b : number) :
  is_nan a = false -> is_nan b = false ->
  (Math_max a b = a \/ Math_max a b = b)
  /\ le a (Math_max a b) = true /\ le b (Math_max a b) = true.
Proof.
  intros Ha Hb. unfold Math_max.
  pose proof (compare_antisym a b) as Hab.
  destruct (SFcompare a b) as [[]|] eqn:E.
  - assert (le a b = true) by (unfold le, SFleb; now rewrite E).
    assert (le b a = true) by (unfold le, SFleb; now rewrite Hab).
    destruct a as [[]| | |]; auto using le_refl.
  - repeat split; auto using le_refl. unfold le, SFleb. now rewrite E.
  - repeat split; auto using le_refl. unfold le, SFleb. now rewrite Hab.
  - apply compare_None in E. destruct E; congruence.
Qed.

Lemma fold_Math_max (l : list number) (acc : number) :
  Forall (fun x => is_nan x = false) l -> is_nan acc = false ->
  let r := fold_left Math_max l acc in
  is_nan r = false /\ le acc r = true
  /\ Forall (fun x => le x r = true) l /\ (r = acc \/ In r l).
Proof.
  revert acc. induction l as [|x l IH]; intros acc Hl Hacc; simpl.
  - repeat split; auto using le_refl.
  - inversion Hl as [|? ? Hx Hl']; subst.
    destruct (Math_max_upper acc x Hacc Hx) as (Hor & H1 & H2).
    assert (Hm : is_nan (Math_max acc x) = false)
      by (destruct Hor as [-> | ->]; assumption).
    destruct (IH (Math_max acc x) Hl' Hm) as (Hr & Hle & Hall & Hin).
    repeat split; eauto using le_trans.
    destruct Hin as [-> | Hin]; [|auto].
    destruct Hor as [-> | ->]; auto.
Qed.

End Order.

Section ClassifierMore.
Context `{MathLib}.

(** X1. After [reset] the classifier has no memory: the configuration
    is kept, both histories are empty, the Step Detector is silent for
    every magnitude and [getActivity] decides on the raw speed and
    acceleration alone. *)
Theorem reset_forgets (this : ActivityClassifierService) :
  config (after reset this) = config this
  /\ speedHistory (after reset this) = []
  /\ accelerationHistory (after reset this) = []
  /\ (forall m, result (detectStep m) (after reset this) = false)
  /\ (forall speed acceleration,
        result (getActivity speed acceleration) (after reset this)
        = spec_classify (config this) speed acceleration).
Proof.
  repeat split. intros speed acceleration.
  unfold result, after, reset, getActivity, getAverages, bind,
    this_speedHistory, this_accelerationHistory, this_config,
    set_speedHistory, set_accelerationHistory, ret, spec_classify; simpl.
  repeat match goal with |- context [if ?b then _ else _] => destruct b end;
    reflexivity.
Qed.

Lemma spread_config_twice (base : ClassifierConfig)
  (over : PartialClassifierConfig) :
  spread_config (spread_config base over) over = spread_config base over.
Proof.
  destruct over as [a b c d e f g h i j k l m].
  destruct a, b, c, d, e, f, g, h, i, j, k, l, m; reflexivity.
Qed.

(** X2. [setConfig] touches the configuration only: the histories stay,
    applying the same partial configuration twice is the same as
    applying it once, a partial configuration with no field changes
    nothing, and [getConfig] then returns the merged configuration. *)
Theorem setConfig_merges (this : ActivityClassifierService)
  (c : PartialClassifierConfig) :
  speedHistory (after (setConfig c) this) = speedHistory this
  /\ accelerationHistory (after (setConfig c) this)
     = accelerationHistory this
  /\ result getConfig (after (setConfig c) this)
     = spread_config (config this) c
  /\ after (setConfig c) (after (setConfig c) this)
     = after (setConfig c) this
  /\ after (setConfig noOverrides) this = this.
Proof.
  repeat split.
  - unfold after, setConfig, bind, this_config, set_config. simpl.
    now rewrite spread_config_twice.
  - destruct this as [[] sh ah]. reflexivity.
Qed.

Lemma updateHistory_length (this : ActivityClassifierService)
  (history : list number) (v : number) :
  length (result (updateHistory history v) this)
  = if gt (of_nat (length history + 1)) (movingAverageWindow (config this))
    then length history else (length history + 1)%nat.
Proof.
  rewrite updateHistory_result.
  replace (length (history ++ [v])) with (length history + 1)%nat
    by (rewrite length_app; reflexivity).
  destruct (gt _ _); [apply length_tail_snoc|].
  rewrite length_app. reflexivity.
Qed.

(** X3. The two histories stay equally long: [updateHistories] keeps
    equal lengths equal, so they are equal after any run of samples
    fed to a reset service. *)
Theorem histories_same_length (this : ActivityClassifierService) :
  (forall speed acceleration,
     length (speedHistory this) = length (accelerationHistory this) ->
     length (speedHistory (after (updateHistories speed acceleration) this))
     = length (accelerationHistory
                 (after (updateHistories speed acceleration) this)))
  /\ (forall samples,
        length (speedHistory (after (feed samples) (after reset this)))
        = length (accelerationHistory
                    (after (feed samples) (after reset this)))).
Proof.
  assert (Step : forall (t : ActivityClassifierService) speed acceleration,
            length (speedHistory t) = length (accelerationHistory t) ->
            length (speedHistory (after (updateHistories speed acceleration) t))
            = length (accelerationHistory
                        (after (updateHistories speed acceleration) t))).
  { intros t speed acceleration E. rewrite updateHistories_run. simpl.
    now rewrite !updateHistory_length, E. }
  split; [apply Step|].
  intros samples. generalize (after reset this) (eq_refl :
    length (speedHistory (after reset this))
    = length (accelerationHistory (after reset this))).
  induction samples as [|[speed acceleration] samples IH]; intros t E.
  - exact E.
  - simpl feed. rewrite after_then. apply IH. now apply Step.
Qed.

Lemma last_snoc {A} (l : list A) (a d : A) : List.last (l ++ [a]) d = a.
Proof. apply List.last_last. Qed.

Lemma last_tail {A} (l : list A) (d : A) :
  (2 <= length l)%nat -> List.last (tail l) d = List.last l d.
Proof. destruct l as [|a [|b l]]; simpl; intros; try lia; reflexivity. Qed.

(** X4. A step detected right after a sample was pushed is measured
    against that very sample: if [detectStep m] fires on the service
    left by [updateHistories speed a], then [m] is above [a] plus the
    step threshold and above the walking threshold. *)
Theorem detectStep_after_push (this : ActivityClassifierService)
  (speed a m : number) :
  result (detectStep m) (after (updateHistories speed a) this) = true ->
  gt m (add a (stepDetectionThreshold (config this))) = true
  /\ gt m (walkingAccelerationThreshold (config this)) = true.
Proof.
  rewrite updateHistories_run.
  remember (result (updateHistory (accelerationHistory this) a) this)
    as pushed eqn:Ep.
  rewrite updateHistory_result in Ep.
  unfold result, detectStep, bind, this_accelerationHistory, this_config,
    ret; simpl.
  destruct (length pushed <? 2)%nat eqn:Elen; simpl; [discriminate|].
  apply Nat.ltb_ge in Elen. rewrite nth_last_index.
  assert (El : List.last pushed NaN = a).
  { subst pushed. destruct (gt (of_nat _) _).
    - rewrite last_tail, last_snoc; [reflexivity|].
      rewrite length_tail_snoc in Elen. rewrite length_app. simpl. lia.
    - apply last_snoc. }
  rewrite El. apply andb_true_iff.
Qed.

(** X5. Once both histories have a positive mean the raw arguments of
    [getActivity] do not matter: any two calls return the same
    activity. *)
Theorem getActivity_ignores_raw (this : ActivityClassifierService)
  (speed acceleration speed' acceleration' : number) :
  gt (spec_mean (speedHistory this)) zero = true ->
  gt (spec_mean (accelerationHistory this)) zero = true ->
  result (getActivity speed acceleration) this
  = result (getActivity speed' acceleration') this.
Proof.
  intros Hs Ha.
  unfold result, getActivity, getAverages, bind, this_speedHistory,
    this_accelerationHistory, this_config, ret; simpl.
  rewrite !calculateMovingAverage_spec, Hs, Ha. reflexivity.
Qed.

End ClassifierMore.

(** * Further properties of the batch statistics *)

Section ControllerMore.
Context `{MathLib}.

Lemma tally_succ (k : nat) (n : number) :
  Nat.iter k (fun n => add n one) (add n one)
  = add (Nat.iter k (fun n => add n one) n) one.
Proof. induction k as [|k IH]; simpl; [reflexivity|]. now rewrite IH. Qed.

Lemma countSteps_tally (this : ActivityClassifierService)
  (rest : list ActivityLog) (n : number) :
  result (countSteps rest n) this
  = Nat.iter (length (List.filter (countsAsStep this) rest))
      (fun n => add n one) n.
Proof.
  revert n. induction rest as [|entry rest IH]; intros n; [reflexivity|].
  unfold result in *. simpl countSteps. unfold bind.
  pose proof (detectStep_frame (acc_magnitude (log_acceleration entry)) this)
    as E.
  unfold after in E. simpl List.filter. unfold countsAsStep at 1.
  unfold result.
  destruct (detectStep _ this) as [fired this']; simpl in *. subst this'.
  rewrite IH.
  destruct fired; simpl; [|reflexivity].
  destruct (isWalkingOrRunning (log_activity entry)); simpl; [|reflexivity].
  apply tally_succ.
Qed.

(** X6. The batch step count is the number of entries after the first
    one whose stored activity is Walking or Running and on whose stored
    magnitude the detector of the service fires; the histories of the
    service are what the detector compares with, so neither the first
    entry nor the order or the neighbours of an entry matter. *)
Theorem batch_steps_count (this : ActivityClassifierService) (now : number)
  (first : ActivityLog) (rest : list ActivityLog) (id : string)
  (start : number) :
  steps (result (calculateSessionStats now (first :: rest) id start) this)
  = tally (length (List.filter (countsAsStep this) rest)).
Proof.
  unfold result. rewrite calculateSessionStats_run. simpl steps.
  apply countSteps_tally.
Qed.

Lemma countsAsStep_short (this : ActivityClassifierService)
  (entry : ActivityLog) :
  (length (accelerationHistory this) < 2)%nat ->
  countsAsStep this entry = false.
Proof.
  intros Hlen. apply Nat.ltb_lt in Hlen.
  unfold countsAsStep, result, detectStep, bind, this_accelerationHistory,
    this_config, ret; simpl.
  now rewrite Hlen.
Qed.

Lemma filter_none {A} (f : A -> bool) (l : list A) :
  (forall x, f x = false) -> List.filter f l = [].
Proof.
  intros Hf. induction l as [|x l IH]; simpl; [reflexivity|].
  now rewrite Hf.
Qed.

(** X7. When the service holds fewer than two acceleration samples, as
    it does after [reset], batch recomputation counts no step whatever
    the log contains. *)
Theorem batch_steps_without_history (this : ActivityClassifierService)
  (now : number) (logs : list ActivityLog) (id : string) (start : number) :
  (length (accelerationHistory this) < 2)%nat ->
  steps (result (calculateSessionStats now logs id start) this) = zero.
Proof.
  intros Hlen. destruct logs as [|first rest]; [reflexivity|].
  unfold result. rewrite calculateSessionStats_run. simpl steps.
  rewrite countSteps_tally, filter_none; [reflexivity|].
  intros entry. now apply countsAsStep_short.
Qed.

Lemma countActivity_lookup (acts : gmap ActivityType number)
  (a b : ActivityType) :
  is_Some (countActivity acts a !! b) <-> a = b \/ is_Some (acts !! b).
Proof.
  unfold countActivity. destruct (decide (a = b)) as [->|Hne].
  - rewrite lookup_insert_eq. split; [auto|]. intros _. eexists. reflexivity.
  - rewrite lookup_insert_ne by exact Hne. tauto.
Qed.

Lemma fold_countActivity_lookup (logs : list ActivityLog)
  (acts : gmap ActivityType number) (b : ActivityType) :
  is_Some
    (fold_left (fun acts log => countActivity acts (log_activity log))
       logs acts !! b)
  <-> is_Some (acts !! b) \/ In b (map log_activity logs).
Proof.
  revert acts. induction logs as [|entry logs IH]; intros acts; simpl.
  - tauto.
  - rewrite IH, countActivity_lookup. intuition congruence.
Qed.

(** X8. The activity tally of the batch statistics has a count for
    exactly the activities that occur in the log. *)
Theorem batch_activities_keys (this : ActivityClassifierService)
  (now : number) (logs : list ActivityLog) (id : string) (start : number)
  (a : ActivityType) :
  is_Some
    (activities (result (calculateSessionStats now logs id start) this) !! a)
  <-> In a (map log_activity logs).
Proof.
  destruct logs as [|first rest].
  - simpl. split; [intros [? ?]; discriminate|tauto].
  - unfold result. rewrite calculateSessionStats_run. cbn [fst activities].
    rewrite fold_countActivity_lookup.
    split; [intros [[x Hx]|Hin]; [|exact Hin]|auto].
    rewrite lookup_empty in Hx. discriminate.
Qed.

Lemma positiveSpeeds_spec (logs : list ActivityLog) (s : number) :
  In s (positiveSpeeds logs)
  <-> exists entry, In entry logs /\ log_speed entry = s /\ gt s zero = true.
Proof.
  unfold positiveSpeeds. rewrite filter_In, in_map_iff.
  split.
  - intros [[entry [E Hin]] Hgt]. eauto.
  - intros [entry (Hin & E & Hgt)]. eauto.
Qed.

Lemma maxOf_positive (speeds : list number) :
  speeds <> [] -> Forall (fun s => gt s zero = true) speeds ->
  In (maxOf speeds) speeds
  /\ Forall (fun s => le s (maxOf speeds) = true) speeds.
Proof.
  intros Hne Hpos.
  assert (Hnan : Forall (fun x => is_nan x = false) speeds)
    by (eapply Forall_impl; [exact Hpos|]; intros s; apply gt_not_nan).
  destruct (fold_Math_max speeds (S754_infinity true) Hnan eq_refl)
    as (_ & _ & Hall & Hin).
  fold (maxOf speeds) in Hall, Hin. split; [|exact Hall].
  destruct Hin as [E|Hin]; [|exact Hin].
  destruct speeds as [|s speeds]; [congruence|].
  inversion Hall as [|? ? Hs _]; subst. inversion Hpos as [|? ? Hgt _]; subst.
  rewrite E in Hs. destruct s as [[]|[]| |[] m e]; discriminate.
Qed.

(** X9. The batch maximum speed is the largest positive speed of the
    log: it is the speed of some entry and no positive speed of the log
    exceeds it; when no entry has a positive speed, maximum and
    average are both 0. *)
Theorem batch_maxSpeed (this : ActivityClassifierService) (now : number)
  (logs : list ActivityLog) (id : string) (start : number) :
  let stats := result (calculateSessionStats now logs id start) this in
  (positiveSpeeds logs = []
   /\ maxSpeed stats = zero /\ averageSpeed stats = zero)
  \/ (In (maxSpeed stats) (positiveSpeeds logs)
      /\ forall entry,
           In entry logs -> gt (log_speed entry) zero = true ->
           le (log_speed entry) (maxSpeed stats) = true).
Proof.
  intros stats. subst stats.
  destruct logs as [|first rest]; [left; repeat split|].
  unfold result. rewrite calculateSessionStats_run.
  cbn [fst maxSpeed averageSpeed]. cbv zeta.
  fold (positiveSpeeds (first :: rest)).
  destruct (positiveSpeeds (first :: rest)) as [|s speeds] eqn:E.
  - left. repeat split.
  - right. change (0 <? length (s :: speeds))%nat with true. cbv iota.
    assert (Hpos : Forall (fun s => gt s zero = true) (s :: speeds)).
    { rewrite <- E. apply List.Forall_forall. intros x Hx.
      apply positiveSpeeds_spec in Hx. now destruct Hx as (_ & _ & _ & Hx). }
    destruct (maxOf_positive (s :: speeds)) as [Hin Hall];
      [discriminate|exact Hpos|].
    split; [exact Hin|].
    intros entry Hentry Hgt. rewrite List.Forall_forall in Hall. apply Hall.
    rewrite <- E. apply positiveSpeeds_spec. eauto.
Qed.

End ControllerMore.

(** * Further properties of the live hooks *)

Section HookMore.
Context `{MathLib}.

Import HookActivityClassifier.

Lemma hasFix_zero (loc : LocationData) :
  truthy (loc_latitude loc) = false \/ truthy (loc_longitude loc) = false ->
  hasFix (Some loc) = false.
Proof.
  simpl. intros [-> | ->]; [reflexivity|]. apply andb_false_r.
Qed.

(** X10. A sample that arrives while the listener holds no location, or
    a location whose latitude or longitude is 0 or NaN (a fix on the
    equator or on the prime meridian), is not classified: only the
    stored acceleration changes. *)
Theorem sample_without_fix (location : option LocationData) (tick : Tick)
  (x y z : number) (st : State) :
  match location with
  | None => True
  | Some loc =>
      truthy (loc_latitude loc) = false \/ truthy (loc_longitude loc) = false
  end ->
  onAccelerometer location tick x y z st
  = {| classifier := classifier st; sessionStats := sessionStats st;
       activityLogs := activityLogs st;
       currentActivity := currentActivity st; confidence := confidence st;
       location := HookActivityClassifier.location st;
       acceleration :=
         Some {| acc_x := x; acc_y := y; acc_z := z;
                 acc_magnitude := calculateMagnitude x y z;
                 acc_timestamp := sampleTime tick |};
       lastLocationRef := lastLocationRef st |}.
Proof.
  intros Hloc. unfold onAccelerometer.
  destruct location as [loc|]; [|reflexivity].
  now rewrite (hasFix_zero loc Hloc).
Qed.

(** X11. A processed sample is pushed on the histories once and
    appends exactly one record to the log: the record carries the
    classified activity, the confidence of that activity on the
    updated service, the location the listener holds, its speed (0
    when the speed is null) and the sample; distance, maximum speed
    and the session's identity are left alone. *)
Theorem sample_recorded (loc : LocationData) (tick : Tick) (x y z : number)
  (st : State) :
  hasFix (Some loc) = true ->
  let magnitude := calculateMagnitude x y z in
  let speed := default zero (loc_speed loc) in
  let pushed := after (updateHistories speed magnitude) (classifier st) in
  let st' := onAccelerometer (Some loc) tick x y z st in
  classifier st' = pushed
  /\ currentActivity st' = result (getActivity speed magnitude) pushed
  /\ confidence st'
     = result (getConfidence speed magnitude (currentActivity st')) pushed
  /\ activityLogs st'
     = activityLogs st
       ++ [{| log_id := logId tick; log_activity := currentActivity st';
              log_confidence := confidence st'; log_location := loc;
              log_acceleration :=
                {| acc_x := x; acc_y := y; acc_z := z;
                   acc_magnitude := magnitude;
                   acc_timestamp := sampleTime tick |};
              log_timestamp := logTime tick; log_speed := speed |}]
  /\ distance (sessionStats st') = distance (sessionStats st)
  /\ maxSpeed (sessionStats st') = maxSpeed (sessionStats st)
  /\ sessionId (sessionStats st') = sessionId (sessionStats st)
  /\ startTime (sessionStats st') = startTime (sessionStats st)
  /\ endTime (sessionStats st') = endTime (sessionStats st).
Proof.
  intros Hfix magnitude speed pushed st'. subst st'.
  unfold onAccelerometer. rewrite Hfix. fold magnitude. fold speed.
  fold pushed.
  pose proof (getActivity_frame speed magnitude pushed) as Ea.
  unfold after, result in *.
  destruct (getActivity speed magnitude pushed) as [activity c2].
  simpl in Ea. subst c2. simpl.
  repeat split.
Qed.

Lemma is_finite_not_nan (x : number) : is_finite x = true -> is_nan x = false.
Proof. now destruct x. Qed.

(** X12. A location update never touches the classifier, the log, the
    activity or the confidence.  The location it stores has the
    coordinates and the timestamp of the fix and a finite speed, which
    is 0 for the first fix of a session, and the first fix leaves the
    statistics alone. *)
Theorem location_stored (now : number) (gps : LocationData) (st : State) :
  let st' := onLocation now gps st in
  classifier st' = classifier st
  /\ activityLogs st' = activityLogs st
  /\ currentActivity st' = currentActivity st
  /\ confidence st' = confidence st
  /\ location st' = lastLocationRef st'
  /\ (exists stored v,
        location st' = Some stored
        /\ loc_latitude stored = loc_latitude gps
        /\ loc_longitude stored = loc_longitude gps
        /\ loc_timestamp stored = loc_timestamp gps
        /\ loc_speed stored = Some v /\ is_finite v = true
        /\ (lastLocationRef st = None -> v = zero))
  /\ (lastLocationRef st = None -> sessionStats st' = sessionStats st).
Proof.
  intros st'. subst st'. unfold onLocation.
  destruct (lastLocationRef st) as [last|]; simpl.
  - repeat split; try discriminate.
    eexists _, _. repeat split; try discriminate.
    now destruct (is_finite (div _ _)) eqn:E.
  - repeat split. eexists _, _. repeat split.
Qed.


End HookMore.

Section SecondHookMore.
Context `{MathLib}.

Import HookUseActivityClassifier.

(** X14. The location handler of the second hook never records
    anything: whatever its closure holds, an update leaves the
    statistics, the step counter, the speed sums, the log and the
    classifier as they were and stores the new location; while the
    session is active and an acceleration is known it also reports
    an error, because its call of [updateHistory] passes a number
    where an array is spread. *)
Theorem handleLocationUpdate_records_nothing (isActive : bool)
  (acceleration : option AccelerometerData) (tick : Tick)
  (newLocation : LocationData) (st : State) :
  let st' := handleLocationUpdate isActive acceleration tick newLocation st in
  sessionStatsRef st' = sessionStatsRef st
  /\ stepCountRef st' = stepCountRef st
  /\ speedSumRef st' = speedSumRef st
  /\ speedCountRef st' = speedCountRef st
  /\ activityLogs st' = activityLogs st
  /\ lastLocationRef st' = lastLocationRef st
  /\ classifier st' = classifier st
  /\ location st' = Some newLocation
  /\ error st'
     = (if isActive && bool_decide (acceleration <> None)
        then Some "Error procesando datos de ubicación" else error st).
Proof. destruct isActive, acceleration; repeat split. Qed.

End SecondHookMore.

(** * Properties of the stored data *)

Section StorageFacts.
Context {jsonLogs : JSON (list ActivityLog)} {jsonStats : JSON SessionStats}
  {jsonTotals : JSON TotalStats} {jsonRoutes : JSON (list SavedRoute)}.

Lemma readOr_setItem {T} `{JSON T} (key : string) (fallback value : T)
  (device device' : AsyncStorage) :
  setItem key (stringify value) device = Resolved device' ->
  survives value -> readOr key fallback device' = value.
Proof.
  unfold setItem, readOr, getItem, survives.
  destruct (available device) eqn:Ea; [|discriminate].
  intros [= <-] Hs. simpl. rewrite lookup_insert_eq. now rewrite Hs.
Qed.

Lemma readOrNull_setItem {T} `{JSON T} (key : string) (value : T)
  (device device' : AsyncStorage) :
  setItem key (stringify value) device = Resolved device' ->
  survives value -> readOrNull key device' = Some value.
Proof.
  unfold setItem, readOrNull, getItem, survives.
  destruct (available device) eqn:Ea; [|discriminate].
  intros [= <-] Hs. simpl. now rewrite lookup_insert_eq.
Qed.

Lemma setItem_other (key other value : string)
  (device device' : AsyncStorage) :
  setItem key value device = Resolved device' -> key <> other ->
  items device' !! other = items device !! other
  /\ available device' = true /\ available device = true.
Proof.
  unfold setItem. destruct (available device) eqn:Ea; [|discriminate].
  intros [= <-] Hne. simpl. now rewrite lookup_insert_ne.
Qed.

Lemma readOr_other {T} `{JSON T} (key other : string) (fallback : T)
  (value : string) (device device' : AsyncStorage) :
  setItem key value device = Resolved device' -> key <> other ->
  readOr other fallback device' = readOr other fallback device.
Proof.
  intros Hset Hne.
  destruct (setItem_other _ _ _ _ _ Hset Hne) as (Hi & Ha' & Ha).
  unfold readOr, getItem. now rewrite Ha, Ha', Hi.
Qed.

Lemma readOrNull_other {T} `{JSON T} (key other : string)
  (value : string) (device device' : AsyncStorage) :
  setItem key value device = Resolved device' -> key <> other ->
  readOrNull (T:=T) other device' = readOrNull other device.
Proof.
  intros Hset Hne.
  destruct (setItem_other _ _ _ _ _ Hset Hne) as (Hi & Ha' & Ha).
  unfold readOrNull, getItem. now rewrite Ha, Ha', Hi.
Qed.

Lemma setItem_available (key value : string) (device : AsyncStorage) :
  available device = true ->
  exists device', setItem key value device = Resolved device'.
Proof. unfold setItem. intros ->. eauto. Qed.


Lemma find_filter_other (id id' : string) (routes : list SavedRoute) :
  id' <> id ->
  find (fun route => String.eqb (route_id route) id')
    (List.filter (fun route => negb (String.eqb (route_id route) id)) routes)
  = find (fun route => String.eqb (route_id route) id') routes.
Proof.
  intros Hne. induction routes as [|r routes IH]; simpl; [reflexivity|].
  destruct (String.eqb (route_id r) id) eqn:E; simpl.
  - apply String.eqb_eq in E.
    destruct (String.eqb (route_id r) id') eqn:E'; [|exact IH].
    apply String.eqb_eq in E'. congruence.
  - now rewrite IH.
Qed.

Lemma find_filter_same (id : string) (routes : list SavedRoute) :
  find (fun route => String.eqb (route_id route) id)
    (List.filter (fun route => negb (String.eqb (route_id route) id)) routes)
  = None.
Proof.
  induction routes as [|r routes IH]; simpl; [reflexivity|].
  destruct (String.eqb (route_id r) id) eqn:E; simpl; [exact IH|].
  now rewrite E.
Qed.


Lemma readRoute_None (id : string) (device : AsyncStorage) :
  readRoute id device = None ->
  Forall (fun route => route_id route <> id) (readRoutes device).
Proof.
  unfold readRoute. induction (readRoutes device) as [|r routes IH]; simpl.
  - constructor.
  - destruct (String.eqb (route_id r) id) eqn:E; [discriminate|].
    apply String.eqb_neq in E. intros Hnone. constructor; auto.
Qed.

(** X17. Looking a route up by id returns the first stored route with
    that id, and [null] exactly when no stored route has it. *)
Theorem readRoute_first (id : string) (device : AsyncStorage) :
  match readRoute id device with
  | Some route =>
      route_id route = id
      /\ exists before rest,
           readRoutes device = before ++ route :: rest
           /\ Forall (fun earlier => route_id earlier <> id) before
  | None => Forall (fun route => route_id route <> id) (readRoutes device)
  end.
Proof.
  unfold readRoute. induction (readRoutes device) as [|r routes IH]; simpl.
  - constructor.
  - destruct (String.eqb (route_id r) id) eqn:E.
    + apply String.eqb_eq in E. split; [exact E|].
      exists [], routes. split; [reflexivity|constructor].
    + apply String.eqb_neq in E.
      destruct (find _ routes) as [route|].
      * destruct IH as (Hid & before & rest & -> & Hb).
        split; [exact Hid|]. exists (r :: before), rest.
        split; [reflexivity|]. now constructor.
      * now constructor.
Qed.

(** X18. On a store that rejects every call the reads answer with
    their defaults (no logs, no routes, no statistics) and every write
    rejects with the message of its own method. *)
Theorem storage_unavailable (device : AsyncStorage) :
  available device = false ->
  readLogs device = [] /\ readRoutes device = []
  /\ readSessionStats device = None /\ readTotalStats device = None
  /\ (forall id, readRoute id device = None)
  /\ (forall logs,
        saveLogs logs device
        = Rejected "No se pudieron guardar los logs de actividad")
  /\ (forall stats,
        saveSessionStats stats device
        = Rejected "No se pudieron guardar las estadísticas de sesión")
  /\ (forall now stats,
        updateTotalStats now stats device
        = Rejected "No se pudieron actualizar las estadísticas totales")
  /\ (forall route,
        saveRoute route device = Rejected "No se pudo guardar la ruta")
  /\ (forall id,
        deleteRoute id device = Rejected "No se pudo eliminar la ruta")
  /\ clearAll device = Rejected "No se pudieron limpiar los datos".
Proof.
  intros Ha.
  unfold readRoute, readLogs, readRoutes, readSessionStats, readTotalStats,
    saveLogs, saveSessionStats, updateTotalStats, saveTotalStats, saveRoute,
    deleteRoute, clearAll, readOr, readOrNull, getItem, setItem,
    multiRemove.
  rewrite !Ha. simpl. repeat split; intros; reflexivity.
Qed.

Lemma filter_append_new (id : string) (routes : list SavedRoute)
  (route : SavedRoute) :
  route_id route = id ->
  Forall (fun stored => route_id stored <> id) routes ->
  List.filter (fun stored => negb (String.eqb (route_id stored) id))
    (routes ++ [route]) = routes.
Proof.
  intros Hid Hall. induction Hall as [|r routes Hr Hall IH]; simpl.
  - subst id. now rewrite String.eqb_refl.
  - apply String.eqb_neq in Hr. rewrite Hr. simpl. now rewrite IH.
Qed.


End StorageFacts.

Section RouteFacts.
Context {jsonLogs : JSON (list ActivityLog)} {jsonStats : JSON SessionStats}
  {jsonTotals : JSON TotalStats} {jsonRoutes : JSON (list SavedRoute)}.
Variable toLocaleString : number -> string.

Lemma RouteService_saveRoute_run (routeId : string) (now : number)
  (logs : list ActivityLog) (stats : SessionStats) (name : option string)
  (device : AsyncStorage) :
  let route := routeOf toLocaleString routeId logs stats name in
  available device = true ->
  survives (readRoutes device ++ [route]) ->
  survives (updatedTotals now (readTotalStats device) stats) ->
  exists device',
    RouteService_saveRoute toLocaleString routeId now logs stats name device
    = Resolved (route, device')
    /\ available device' = true
    /\ readRoutes device' = readRoutes device ++ [route]
    /\ readTotalStats device'
       = Some (updatedTotals now (readTotalStats device) stats)
    /\ readLogs device' = readLogs device
    /\ readSessionStats device' = readSessionStats device.
Proof.
  intros route Ha Hroutes Htotals.
  destruct (setItem_available KEYS_ROUTES
              (stringify (readRoutes device ++ [route])) device Ha)
    as [device1 Hset1].
  assert (Ha1 : available device1 = true)
    by (apply (setItem_other _ KEYS_LOGS _ _ _ Hset1); discriminate).
  assert (Et : readTotalStats device1 = readTotalStats device)
    by (apply (readOrNull_other _ _ _ _ _ Hset1); discriminate).
  destruct (setItem_available KEYS_TOTAL_STATS
              (stringify (updatedTotals now (readTotalStats device) stats))
              device1 Ha1) as [device2 Hset2].
  exists device2.
  unfold RouteService_saveRoute, saveRoute. fold route. rewrite Hset1.
  cbn [orThrow]. unfold updateTotalStats, saveTotalStats.
  rewrite Et, Hset2. cbn [orThrow]. split; [reflexivity|].
  split; [apply (setItem_other _ KEYS_LOGS _ _ _ Hset2); discriminate|].
  split.
  { unfold readRoutes at 1.
    rewrite (readOr_other _ _ _ _ _ _ Hset2) by discriminate.
    now apply (readOr_setItem _ _ _ _ _ Hset1). }
  split; [now apply (readOrNull_setItem _ _ _ _ Hset2)|].
  split.
  - unfold readLogs.
    rewrite (readOr_other _ _ _ _ _ _ Hset2) by discriminate.
    now rewrite (readOr_other _ _ _ _ _ _ Hset1) by discriminate.
  - unfold readSessionStats.
    rewrite (readOrNull_other _ _ _ _ _ Hset2) by discriminate.
    now rewrite (readOrNull_other _ _ _ _ _ Hset1) by discriminate.
Qed.




End RouteFacts.

Section ProcessFacts.
Context `{MathLib}.

Lemma getActivity_known (speed acceleration : number)
  (this : ActivityClassifierService) :
  result (getActivity speed acceleration) this <> UNKNOWN.
Proof.
  unfold result, getActivity, getAverages, bind, this_speedHistory,
    this_accelerationHistory, this_config, ret; simpl.
  repeat match goal with |- context [if ?b then _ else _] => destruct b end;
    discriminate.
Qed.

Lemma processActivityData_run (latitude longitude : number)
  (locationSpeed : option number) (x y z : number)
  (lastLocation : option (number * number))
  (this : ActivityClassifierService) :
  let speed := Math_abs (default zero locationSpeed) in
  let magnitude := calculateMagnitude x y z in
  let pushed := after (updateHistories speed magnitude) this in
  let activity := result (getActivity speed magnitude) pushed in
  processActivityData latitude longitude locationSpeed x y z lastLocation this
  = ({| pa_activity := activity;
        pa_confidence :=
          result (getConfidence speed magnitude activity) pushed;
        pa_distance :=
          match lastLocation with
          | Some (lastLatitude, lastLongitude) =>
              calculateDistance lastLatitude lastLongitude latitude longitude
          | None => zero
          end |}, pushed).
Proof.
  intros speed magnitude pushed activity.
  unfold processActivityData. fold speed. fold magnitude.
  unfold bind at 1. subst activity pushed. unfold after, result.
  destruct (updateHistories speed magnitude this) as [[] pushed].
  cbn [fst snd]. unfold bind at 1.
  pose proof (getActivity_frame speed magnitude pushed) as Ea.
  unfold after in Ea.
  destruct (getActivity speed magnitude pushed) as [activity c2].
  cbn [fst snd] in *. subst c2. reflexivity.
Qed.

(** X23. [processActivityData] pushes the sample once and classifies on
    the updated service: the speed it uses is the magnitude of the
    location's speed, 0 when that is null, so a speed and its negative
    give the same answer; the activity is never [UNKNOWN]; the distance
    is 0 when there is no previous location and the haversine distance
    from it otherwise. *)
Theorem processActivityData_result (latitude longitude : number)
  (locationSpeed : option number) (x y z : number)
  (lastLocation : option (number * number))
  (this : ActivityClassifierService) :
  let speed := Math_abs (default zero locationSpeed) in
  let magnitude := calculateMagnitude x y z in
  let pushed := after (updateHistories speed magnitude) this in
  let run :=
    processActivityData latitude longitude locationSpeed x y z lastLocation
      this in
  snd run = pushed
  /\ pa_activity (fst run) = result (getActivity speed magnitude) pushed
  /\ pa_activity (fst run) <> UNKNOWN
  /\ pa_confidence (fst run)
     = result (getConfidence speed magnitude (pa_activity (fst run))) pushed
  /\ pa_distance (fst run)
     = match lastLocation with
       | Some (lastLatitude, lastLongitude) =>
           calculateDistance lastLatitude lastLongitude latitude longitude
       | None => zero
       end
  /\ run
     = processActivityData latitude longitude (neg <$> locationSpeed)
         x y z lastLocation this.
Proof.
  intros speed magnitude pushed run. subst run.
  assert (Eabs : Math_abs (default zero (neg <$> locationSpeed)) = speed).
  { subst speed. destruct locationSpeed as [[]|]; reflexivity. }
  rewrite !processActivityData_run. rewrite Eabs.
  fold speed. fold magnitude. fold pushed. cbn [fst snd pa_activity
    pa_confidence pa_distance].
  repeat split. apply getActivity_known.
Qed.

End ProcessFacts.

(** * Starting and stopping a session *)

Section TrackerFacts.
Context {jsonLogs : JSON (list ActivityLog)} {jsonStats : JSON SessionStats}
  {jsonTotals : JSON TotalStats} {jsonRoutes : JSON (list SavedRoute)}.
Variable toLocaleString : number -> string.

(** X24. A granted [startTracking] begins from nothing: zero
    statistics under the new id and start time with no end time, an
    empty log, no previous location and a classifier with empty
    histories and its configuration kept; the session is active and
    the error cleared.  A refused permission leaves the hook's data
    alone and reports "Permisos de ubicación no otorgados"; a location
    service that fails to start leaves the fresh session inactive with
    the failure's message. *)
Theorem startTracking_fresh (granted : bool) (locationError : option string)
  (sessionId : string) (now : number) (t : Tracker) :
  let run := startTracking granted locationError sessionId now t in
  let hook' := tracker_hook (fst run) in
  (tracker_hasPermission t || granted = false ->
   run = ({| tracker_hook := tracker_hook t; tracker_isActive := false;
             tracker_hasPermission := false;
             tracker_error := Some "Permisos de ubicación no otorgados" |},
          Rejected "Permisos de ubicación no otorgados"))
  /\ (tracker_hasPermission t || granted = true ->
      HookActivityClassifier.sessionStats hook' = freshStats sessionId now
      /\ HookActivityClassifier.activityLogs hook' = []
      /\ HookActivityClassifier.lastLocationRef hook' = None
      /\ speedHistory (HookActivityClassifier.classifier hook') = []
      /\ accelerationHistory (HookActivityClassifier.classifier hook') = []
      /\ config (HookActivityClassifier.classifier hook')
         = config (HookActivityClassifier.classifier (tracker_hook t))
      /\ tracker_hasPermission (fst run) = true
      /\ tracker_isActive (fst run) = bool_decide (locationError = None)
      /\ tracker_error (fst run) = locationError
      /\ snd run
         = match locationError with
           | None => Resolved tt
           | Some message => Rejected message
           end).
Proof.
  intros run hook'. subst hook' run. unfold startTracking.
  destruct (tracker_hasPermission t), granted; simpl; split;
    try discriminate; intros _; try reflexivity;
    destruct locationError; repeat split.
Qed.


(** X26. A session stopped before any sample was recorded saves
    nothing: [stopTracking] right after a granted [startTracking]
    leaves the store as it is, whatever the store holds and whether or
    not it is available, and ends inactive with the session's
    statistics still at zero. *)
Theorem start_then_stop_saves_nothing (granted : bool) (sessionId : string)
  (now endNow durationNow : number) (routeId : string) (totalsNow : number)
  (t : Tracker) (device : AsyncStorage) :
  tracker_hasPermission t || granted = true ->
  let started := fst (startTracking granted None sessionId now t) in
  let run :=
    stopTracking toLocaleString endNow durationNow routeId totalsNow started
      device in
  snd run = Resolved device
  /\ tracker_isActive started = true
  /\ tracker_isActive (fst run) = false
  /\ HookActivityClassifier.sessionStats (tracker_hook (fst run))
     = finalStatsOf endNow durationNow (freshStats sessionId now)
  /\ HookActivityClassifier.activityLogs (tracker_hook (fst run)) = [].
Proof.
  intros Hp started run. subst run started.
  unfold startTracking.
  destruct (tracker_hasPermission t), granted; try discriminate;
    repeat split.
Qed.

End TrackerFacts.

(** * Further concrete runs *)

Section MoreRuns.

Import HookActivityClassifier.

Local Existing Instance firstOrderMath.
Local Existing Instance exampleLogsJSON.
Local Existing Instance exampleStatsJSON.
Local Existing Instance exampleTotalsJSON.
Local Existing Instance exampleRoutesJSON.

Lemma histories_same_length_witness :
  length (speedHistory new_ActivityClassifierService)
  = length (accelerationHistory new_ActivityClassifierService)
  /\ length (speedHistory
               (after (updateHistories one one)
                  new_ActivityClassifierService))
     = length (accelerationHistory
                 (after (updateHistories one one)
                    new_ActivityClassifierService)).
Proof.
  split; [reflexivity|].
  exact (proj1 (histories_same_length new_ActivityClassifierService)
           one one eq_refl).
Defined.

Lemma detectStep_after_push_witness :
  result (detectStep one)
    (after (updateHistories one (dec 1 10))
       (after (feed [(one, dec 1 10)]) new_ActivityClassifierService))
  = true
  /\ gt one
       (add (dec 1 10)
          (stepDetectionThreshold (config new_ActivityClassifierService)))
     = true.
Proof.
  split; [vm_compute; reflexivity|].
  exact (proj1 (detectStep_after_push
                  (after (feed [(one, dec 1 10)])
                     new_ActivityClassifierService)
                  one (dec 1 10) one ltac:(vm_compute; reflexivity))).
Defined.

Lemma getActivity_ignores_raw_witness :
  gt (spec_mean (speedHistory warmService)) zero = true
  /\ gt (spec_mean (accelerationHistory warmService)) zero = true
  /\ result (getActivity zero zero) warmService
     = result (getActivity (of_Z 30) one) warmService.
Proof.
  split; [vm_compute; reflexivity|]. split; [vm_compute; reflexivity|].
  apply (getActivity_ignores_raw warmService zero zero (of_Z 30) one);
    vm_compute; reflexivity.
Defined.

Lemma batch_steps_without_history_witness :
  (length (accelerationHistory new_ActivityClassifierService) < 2)%nat
  /\ steps (result (calculateSessionStats zero [exampleLog; exampleLog]
                      "session_1" zero) new_ActivityClassifierService)
     = zero.
Proof.
  split; [vm_compute; lia|].
  apply batch_steps_without_history. vm_compute. lia.
Defined.

Lemma batch_activities_keys_witness :
  In WALKING (map log_activity [exampleLog])
  /\ is_Some
       (activities
          (result (calculateSessionStats zero [exampleLog] "session_1" zero)
             new_ActivityClassifierService) !! WALKING).
Proof.
  split; [left; reflexivity|].
  apply (proj2 (batch_activities_keys new_ActivityClassifierService zero
                  [exampleLog] "session_1" zero WALKING)).
  left. reflexivity.
Defined.

Lemma batch_maxSpeed_witness :
  In exampleLog [exampleLog] /\ gt (log_speed exampleLog) zero = true
  /\ le (log_speed exampleLog)
       (maxSpeed
          (result (calculateSessionStats zero [exampleLog] "session_1" zero)
             new_ActivityClassifierService)) = true.
Proof.
  split; [left; reflexivity|]. split; [reflexivity|].
  destruct (batch_maxSpeed new_ActivityClassifierService zero [exampleLog]
              "session_1" zero) as [[E _]|[_ Hle]].
  - vm_compute in E. discriminate E.
  - apply Hle; [left; reflexivity|reflexivity].
Defined.

Lemma sample_without_fix_witness :
  truthy (loc_latitude equatorFix) = false
  /\ activityLogs
       (onAccelerometer (Some equatorFix) exampleTick one zero zero
          exampleTracker) = [].
Proof.
  split; [reflexivity|].
  rewrite (sample_without_fix (Some equatorFix) exampleTick one zero zero
             exampleTracker (or_introl eq_refl)).
  reflexivity.
Defined.

Lemma sample_recorded_witness :
  hasFix (Some exampleFix) = true
  /\ classifier
       (onAccelerometer (Some exampleFix) exampleTick one zero zero
          exampleTracker)
     = after (updateHistories one (calculateMagnitude one zero zero))
         new_ActivityClassifierService.
Proof.
  split; [reflexivity|].
  exact (proj1 (sample_recorded exampleFix exampleTick one zero zero
                  exampleTracker eq_refl)).
Defined.

Lemma location_stored_witness :
  lastLocationRef exampleTracker = None
  /\ sessionStats (onLocation (of_Z 1000) exampleFix exampleTracker)
     = sessionStats exampleTracker.
Proof.
  split; [reflexivity|].
  apply (location_stored (of_Z 1000) exampleFix exampleTracker).
  reflexivity.
Defined.




Lemma storage_unavailable_witness :
  available brokenDevice = false
  /\ saveRoute exampleRoute brokenDevice
     = Rejected "No se pudo guardar la ruta".
Proof.
  split; [reflexivity|].
  apply (storage_unavailable brokenDevice eq_refl).
Defined.





Lemma startTracking_fresh_witness :
  tracker_hasPermission idleSession || true = true
  /\ sessionStats
       (tracker_hook
          (fst (startTracking true None "session_2" (of_Z 1000)
                  idleSession)))
     = freshStats "session_2" (of_Z 1000).
Proof.
  split; [reflexivity|].
  exact (proj1 (proj2 (startTracking_fresh true None "session_2" (of_Z 1000)
                         idleSession) eq_refl)).
Defined.


Lemma start_then_stop_saves_nothing_witness :
  tracker_hasPermission idleSession || true = true
  /\ snd (stopTracking exampleLocale (of_Z 2000) (of_Z 2000) "route_1"
            (of_Z 2000)
            (fst (startTracking true None "session_2" (of_Z 1000)
                    idleSession))
            twoRoutesDevice)
     = Resolved twoRoutesDevice.
Proof.
  split; [reflexivity|].
  exact (proj1 (start_then_stop_saves_nothing exampleLocale true "session_2"
                  (of_Z 1000) (of_Z 2000) (of_Z 2000) "route_1" (of_Z 2000)
                  idleSession twoRoutesDevice eq_refl)).
Defined.

End MoreRuns.
